(** * numeroscadastrais: the CPF module, embedded and verified

    A shallow embedding of [numeroscadastrais/cpf.py] and
    [numeroscadastrais/exceptions.py].

    Python strings are modelled as lists of characters, and a character
    is its Unicode code point, a number (a number above U+10FFFF is no
    character; the built-ins treat it like an unassigned code point, so a
    statement about every list holds of every string).  The three built-ins
    whose
    behaviour depends on the character ([\s] of the [re] module,
    [str.isdigit] and [int]) are written out with the tables of the
    Unicode Character Database 14.0, the one CPython 3.11 carries.

    Code that may raise returns a [result]: either [Return v] or
    [Raise e], and [x <- c ;; k] sequences two such computations the way
    Python sequences two statements. *)

From Stdlib Require Import Ascii String List ZArith Lia Bool Arith.
From Stdlib Require Import Decimal DecimalString.
Import ListNotations.

Open Scope Z_scope.

(* ================================================================== *)
(** ** Exceptions (exceptions.py and the built-ins that are raised) *)

Inductive exn_class : Type :=
| ExceptionBase       (* builtins.Exception *)
| LookupError
| IndexError
| ValueError
| InvalidIdError
| InvalidIdFormat
| InvalidIdValue
| InvalidCharacters
| InvalidLength
| InvalidCheckDigit
| InvalidSpecificId.

Definition exn_class_eqb (a b : exn_class) : bool :=
  match a, b with
  | ExceptionBase, ExceptionBase | LookupError, LookupError
  | IndexError, IndexError | ValueError, ValueError
  | InvalidIdError, InvalidIdError | InvalidIdFormat, InvalidIdFormat
  | InvalidIdValue, InvalidIdValue | InvalidCharacters, InvalidCharacters
  | InvalidLength, InvalidLength | InvalidCheckDigit, InvalidCheckDigit
  | InvalidSpecificId, InvalidSpecificId => true
  | _, _ => false
  end.

(** The class statements of exceptions.py: each class with its bases up to
    [Exception], nearest first. *)
Definition bases (c : exn_class) : list exn_class :=
  match c with
  | ExceptionBase => []
  | LookupError => [ExceptionBase]
  | IndexError => [LookupError; ExceptionBase]
  | ValueError => [ExceptionBase]
  | InvalidIdError => [ValueError; ExceptionBase]
  | InvalidIdFormat => [InvalidIdError; ValueError; ExceptionBase]
  | InvalidIdValue => [InvalidIdError; ValueError; ExceptionBase]
  | InvalidCharacters =>
      [InvalidIdFormat; InvalidIdError; ValueError; ExceptionBase]
  | InvalidLength =>
      [InvalidIdFormat; InvalidIdError; ValueError; ExceptionBase]
  | InvalidCheckDigit =>
      [InvalidIdValue; InvalidIdError; ValueError; ExceptionBase]
  | InvalidSpecificId =>
      [InvalidIdValue; InvalidIdError; ValueError; ExceptionBase]
  end.

Definition issubclass (c d : exn_class) : bool :=
  existsb (exn_class_eqb d) (c :: bases c).

(** A raised exception: its class and the message it was built with.  The
    messages of the built-in errors are left empty. *)
Record exception : Type := mkExn { exn_cls : exn_class; exn_msg : string }.

(** [except C:] catches [e] when [isinstance e C]. *)
Definition isinstance (e : exception) (c : exn_class) : bool :=
  issubclass (exn_cls e) c.

Inductive result (A : Type) : Type :=
| Return (a : A)
| Raise (e : exception).

Arguments Return {A} a.
Arguments Raise {A} e.

Definition bind {A B : Type} (c : result A) (k : A -> result B) : result B :=
  match c with
  | Return a => k a
  | Raise e => Raise e
  end.

Notation "x <- c ;; k" := (bind c (fun x => k))
  (at level 61, c at next level, right associativity).

Definition raise {A : Type} (c : exn_class) (msg : string) : result A :=
  Raise (mkExn c msg).

(* ================================================================== *)
(** ** The Python built-ins used by cpf.py *)

(** A character: its code point. *)
Definition chr : Type := N.

Definition str : Type := list chr.

(** An ASCII character literal and an ASCII string literal. *)
Definition char (c : ascii) : chr := N_of_ascii c.

Arguments char c%_char.

Definition lit (s : string) : str := map char (list_ascii_of_string s).

Definition code (c : chr) : N := c.

Definition chr_eqb (a b : chr) : bool := N.eqb a b.

Fixpoint str_eqb (a b : str) : bool :=
  match a, b with
  | [], [] => true
  | x :: a', y :: b' => chr_eqb x y && str_eqb a' b'
  | _, _ => false
  end.

Definition in_range (lo hi n : N) : bool := ((lo <=? n) && (n <=? hi))%N.

(** [\s] in a [str] pattern: the characters for which [str.isspace] holds.
    These are TAB, LF, VT, FF, CR, FS, GS, RS, US, SPACE, NEL (U+0085),
    NBSP (U+00A0), U+1680, U+2000 to U+200A, U+2028, U+2029, U+202F,
    U+205F and U+3000. *)
Definition re_space (c : chr) : bool :=
  let n := code c in
  (in_range 9 13 n || in_range 28 32 n || (n =? 133) || (n =? 160)
   || (n =? 5760) || in_range 8192 8202 n || in_range 8232 8233 n
   || (n =? 8239) || (n =? 8287) || (n =? 12288))%N.

(** The decimal digits of Unicode come in runs of ten consecutive code
    points, for the values 0 to 9 in order.  This is the first code point
    of each run: U+0030 for "0".."9", U+0660 for the Arabic-Indic digits,
    and so on. *)
Definition decimal_zeros : list N :=
  [48; 1632; 1776; 1984; 2406; 2534; 2662; 2790; 2918; 3046; 3174; 3302;
   3430; 3558; 3664; 3792; 3872; 4160; 4240; 6112; 6160; 6470; 6608; 6784;
   6800; 6992; 7088; 7232; 7248; 42528; 43216; 43264; 43472; 43504; 43600;
   44016; 65296; 66720; 68912; 69734; 69872; 69942; 70096; 70384; 70736;
   70864; 71248; 71360; 71472; 71904; 72016; 72784; 73040; 73120; 92768;
   92864; 93008; 120782; 120792; 120802; 120812; 120822; 123200; 123632;
   125264; 130032]%N.

(** The first code point of the run of decimal digits [c] belongs to. *)
Definition decimal_zero (c : chr) : option N :=
  find (fun z => in_range z (z + 9) (code c)) decimal_zeros.

(** The characters that are digits without being decimal digits, as
    ranges of code points: superscripts and subscripts, circled and
    parenthesized digits and the like (U+00B2, U+00B3, U+00B9, ...). *)
Definition other_digits : list (N * N) :=
  [(178, 179); (185, 185); (4969, 4977); (6618, 6618); (8304, 8304);
   (8308, 8313); (8320, 8329); (9312, 9320); (9332, 9340); (9352, 9360);
   (9450, 9450); (9461, 9469); (9471, 9471); (10102, 10110);
   (10112, 10120); (10122, 10130); (68160, 68163); (69216, 69224);
   (69714, 69722); (127232, 127242)]%N.

(** [c.isdecimal()] for one character. *)
Definition chr_isdecimal (c : chr) : bool :=
  match decimal_zero c with
  | Some _ => true
  | None => false
  end.

(** [c.isdigit()] for one character: the decimal digits and the other
    digits. *)
Definition chr_isdigit (c : chr) : bool :=
  chr_isdecimal c
  || existsb (fun r => in_range (fst r) (snd r) (code c)) other_digits.

(** [s.isdigit()]: every character is a digit and there is at least one. *)
Definition isdigit (s : str) : bool :=
  match s with
  | [] => false
  | _ :: _ => forallb chr_isdigit s
  end.

(** The value of a decimal digit. *)
Definition digit_value (c : chr) : Z :=
  match decimal_zero c with
  | Some z => Z.of_N (code c - z)
  | None => 0
  end.

(** [int(a)] for a one-character string [a]: its value when [a] is a
    decimal digit, [ValueError] for every other character. *)
Definition int (a : chr) : result Z :=
  if chr_isdecimal a then Return (digit_value a)
  else raise ValueError "".

Arguments chr_eqb : simpl never.
Arguments re_space : simpl never.
Arguments chr_isdecimal : simpl never.
Arguments chr_isdigit : simpl never.
Arguments digit_value : simpl never.

(** [str(n)] and the [%d] conversion of an integer. *)
Definition str_of_int (n : Z) : str :=
  lit (NilZero.string_of_int (Z.to_int n)).

(** [range(a, b)] as the list it iterates over. *)
Definition range (a b : nat) : list nat := seq a (b - a).

(** [sum(xs)]: left to right, from 0. *)
Definition sum (xs : list Z) : Z := fold_left Z.add xs 0.

(** [s[i]] for [i >= 0]. *)
Definition getitem (s : str) (i : nat) : result chr :=
  match nth_error s i with
  | Some c => Return c
  | None => raise IndexError "string index out of range"
  end.

(** [s[a:b]] for [0 <= a <= b]. *)
Definition slice (s : str) (a b : nat) : str := firstn (b - a) (skipn a s).

(** [s[:-k]] and [s[-k:]] for [k > 0]. *)
Definition slice_to_neg (s : str) (k : nat) : str :=
  firstn (length s - k) s.

Definition slice_from_neg (s : str) (k : nat) : str :=
  skipn (length s - k) s.

(* ================================================================== *)
(** ** cpf.py: the module-level functions *)

(** [re.sub(r'[\s.-]', '', cpf_string)]: the scan of the string, left to
    right; a character matched by the class is replaced by the empty
    string, any other is copied. *)
Definition matches_symbol (c : chr) : bool :=
  re_space c || chr_eqb c (char ".") || chr_eqb c (char "-").

Arguments matches_symbol : simpl never.

Fixpoint strip_symbols (cpf_string : str) : str :=
  match cpf_string with
  | [] => []
  | c :: rest =>
      if matches_symbol c then strip_symbols rest
      else c :: strip_symbols rest
  end.

Definition require_format (cpf_digits : str) (allow_missing_check_digits : bool)
  : result unit :=
  if negb (isdigit cpf_digits) then
    raise InvalidCharacters "CPF must contain digits only."
  else if negb (length cpf_digits =? 11)%nat then
    if negb allow_missing_check_digits then
      raise InvalidLength "CPF length must be 11 digits"
    else if negb (length cpf_digits =? 9)%nat then
      raise InvalidLength "CPF length must be either 9 or 11 digits"
    else Return tt
  else Return tt.

(** The generator [multiply_digits] consumed by [sum]: the products
    [int(a) * b] over [zip(digits, weights)], in order; the first [int]
    that fails raises. *)
Fixpoint multiply_digits (digits : str) (weights : list nat)
  : result (list Z) :=
  match digits, weights with
  | a :: digits', b :: weights' =>
      x <- int a ;;
      xs <- multiply_digits digits' weights' ;;
      Return (x * Z.of_nat b :: xs)
  | _, _ => Return []
  end.

Definition calc_check_digit (cpf_digits : str) : result str :=
  let cpf_digits := slice cpf_digits 0 9 in
  p1 <- multiply_digits cpf_digits (range 1 10) ;;
  let dv1 := (sum p1 mod 11) mod 10 in
  p2 <- multiply_digits (cpf_digits ++ str_of_int dv1) (range 0 10) ;;
  let dv2 := (sum p2 mod 11) mod 10 in
  Return (str_of_int dv1 ++ str_of_int dv2).

Definition has_correct_check_digit (cpf_digits : str) : result bool :=
  dv <- calc_check_digit (slice_to_neg cpf_digits 2) ;;
  Return (str_eqb dv (slice_from_neg cpf_digits 2)).

(** [all(cpf_digits[i] == cpf_digits[0] for i in range(1, 9))]: [all]
    stops at the first false comparison; an index past the end raises. *)
Fixpoint all_equal_first (cpf_digits : str) (indices : list nat)
  : result bool :=
  match indices with
  | [] => Return true
  | i :: indices' =>
      a <- getitem cpf_digits i ;;
      b <- getitem cpf_digits 0 ;;
      if chr_eqb a b then all_equal_first cpf_digits indices'
      else Return false
  end.

Definition is_specifically_invalid_number (cpf_digits : str) : result bool :=
  all_equal_first cpf_digits (range 1 9).

Definition require_valid (cpf_string : str) (allow_missing_check_digits : bool)
  : result unit :=
  let cpf_digits := strip_symbols cpf_string in
  _ <- require_format cpf_digits allow_missing_check_digits ;;
  if (length cpf_string =? 11)%nat then
    ok <- has_correct_check_digit cpf_digits ;;
    if negb ok then raise InvalidCheckDigit "CPF check digit incorrect"
    else
      bad <- is_specifically_invalid_number cpf_digits ;;
      if bad then raise InvalidCheckDigit "CPF number specifically invalid"
      else Return tt
  else Return tt.

Definition is_valid (cpf_string : str) (allow_missing_check_digits : bool)
  : result bool :=
  match require_valid cpf_string allow_missing_check_digits with
  | Raise e => if isinstance e InvalidIdError then Return false else Raise e
  | Return _ => Return true
  end.

(* ================================================================== *)
(** ** cpf.py: class CPF *)

Module CPF.

(** The two private attributes set by [__init__]. *)
Record t : Type := mk { __cpf_digits : str; __valid : bool }.

Definition __init__ (cpf_string : str) : result t :=
  let cpf_digits := strip_symbols cpf_string in
  _ <- require_format cpf_digits true ;;
  if (length cpf_digits =? 11)%nat then
    ok <- has_correct_check_digit cpf_digits ;;
    valid <- (if ok then
                bad <- is_specifically_invalid_number cpf_digits ;;
                Return (negb bad)
              else Return false) ;;
    Return (mk cpf_digits valid)
  else
    dv <- calc_check_digit cpf_digits ;;
    let cpf_digits := cpf_digits ++ dv in
    bad <- is_specifically_invalid_number cpf_digits ;;
    Return (mk cpf_digits (negb bad)).

Definition is_valid (self : t) : bool := __valid self.

Definition digitos_aleatorios (self : t) : str :=
  slice (__cpf_digits self) 0 8.

Definition digito_regiao_fiscal (self : t) : result chr :=
  getitem (__cpf_digits self) 8.

Definition digitos_verificadores (self : t) : str :=
  slice (__cpf_digits self) 9 11.

Definition regiao_fiscal (self : t) : result Z :=
  d <- digito_regiao_fiscal self ;;
  result <- int d ;;
  if result =? 0 then Return 10 else Return result.

Definition digits_only (self : t) : str := __cpf_digits self.

Definition __str__ (self : t) : result str :=
  r <- digito_regiao_fiscal self ;;
  Return (slice (digitos_aleatorios self) 0 3
          ++ lit "." ++ slice (digitos_aleatorios self) 3 6
          ++ lit "." ++ slice (digitos_aleatorios self) 6 8 ++ [r]
          ++ lit "-" ++ digitos_verificadores self).

Definition __repr__ (self : t) : result str :=
  s <- __str__ self ;;
  Return (lit "CPF('" ++ s ++ lit "')").

(** [other] is a [CPF] by its type, so the [isinstance] test of the
    source always passes. *)
Definition __eq__ (self other : t) : bool :=
  str_eqb (__cpf_digits self) (__cpf_digits other).

(** [hash] is the built-in hash of strings, a function of the string
    within one run of the interpreter. *)
Definition __hash__ (hash : str -> Z) (self : t) : Z :=
  hash (__cpf_digits self).

Definition equals_string (self : t) (cps_string : str) : result bool :=
  match __init__ cps_string with
  | Raise e => if isinstance e InvalidIdError then Return false else Raise e
  | Return other => Return (__eq__ self other)
  end.

End CPF.

Definition compare_strings (cpf_string_a cpf_string_b : str) : result bool :=
  match (cpf_a <- CPF.__init__ cpf_string_a ;;
         cpf_b <- CPF.__init__ cpf_string_b ;;
         Return (cpf_a, cpf_b)) with
  | Raise e => if isinstance e InvalidIdFormat then Return false else Raise e
  | Return (cpf_a, cpf_b) => Return (CPF.__eq__ cpf_a cpf_b)
  end.

(* ================================================================== *)
(** ** examples/cpf_examples.py: the interactive examples

    Each example calls [input] once and then [print] once.  An example is
    modelled as a function of the line that [input] returns.  Its result
    is what was written to the terminal, in order, and the exception that
    ended it, if one escaped.  The texts are kept as UTF-8 strings. *)

Inductive output : Type :=
| Prompt (text : string)     (* written by input(text) *)
| Print (text : string).     (* written by print(text) *)

Definition run : Type := (list output * option exception)%type.

Definition check_valid_1 (user_cpf_string : str) : run :=
  let out := [Prompt "Digite um CPF: "] in
  match is_valid user_cpf_string false with
  | Return true => (out ++ [Print "Esse CPF é válido."], None)
  | Return false => (out ++ [Print "Esse CPF não é válido."], None)
  | Raise e => (out, Some e)
  end.

Definition check_valid_2 (user_cpf_string : str) : run :=
  let out := [Prompt "Digite um CPF: "] in
  match require_valid user_cpf_string false with
  | Raise e =>
      if isinstance e InvalidIdFormat then
        (out ++ [Print "Formato incorreto.
Digite 11 digitos. Pontos e traços são permitidos."], None)
      else if isinstance e InvalidIdValue then
        (out ++ [Print "CPF incorreto.
Você deve ter digitado um número errado. Esse CPF não existe."], None)
      else (out, Some e)
  | Return _ => (out ++ [Print "Esse CPF é válido."], None)
  end.

Definition check_valid_3 (user_cpf_string : str) : run :=
  let out := [Prompt "Digite um CPF: "] in
  match require_valid user_cpf_string false with
  | Raise e =>
      if isinstance e InvalidCharacters then
        (out ++ [Print
           "Esse CPF contém letras ou outros caractéres inválidos."], None)
      else if isinstance e InvalidLength then
        (out ++ [Print
           "Esse CPF não está no tamanho correto de 11 caractéres."], None)
      else if isinstance e InvalidCheckDigit then
        (out ++ [Print "Esse CPF foi digitado incorretamente."], None)
      else if isinstance e InvalidSpecificId then
        (out ++ [Print "Esse CPF não existe."], None)
      else (out, Some e)
  | Return _ => (out ++ [Print "Esse CPF é válido."], None)
  end.

Definition equality_1 (user_cpf_string : str) : run :=
  let test_cpf_string := lit "123.456.789-10" in
  let out := [Prompt "Digite o CPF 123.456.789-10: "] in
  match compare_strings test_cpf_string user_cpf_string with
  | Return true => (out ++ [Print "Você digitou o mesmo CPF."], None)
  | Return false => (out ++ [Print "Você não digitou o mesmo CPF."], None)
  | Raise e => (out, Some e)
  end.

(* ================================================================== *)
(** ** The specification's wording of the check digits

    These definitions follow the text of the specification, not the code:
    the digit at position [i] times its weight, summed over the positions,
    reduced modulo 11 and then modulo 10. *)

Definition weighted_sum (digits : list Z) (weight : nat -> Z) (n : nat) : Z :=
  fold_right Z.add 0 (map (fun i => nth i digits 0 * weight i) (seq 0 n)).

Definition spec_dv1 (digits : list Z) : Z :=
  (weighted_sum digits (fun i => Z.of_nat i + 1) 9 mod 11) mod 10.

Definition spec_dv2 (digits : list Z) : Z :=
  (weighted_sum (digits ++ [spec_dv1 digits]) (fun i => Z.of_nat i) 10
     mod 11) mod 10.

(** The character of a one-digit number. *)
Definition digit_chr (n : Z) : chr := Z.to_N (48 + n).

(** The denylist in the specification's words: each of the first nine
    characters equals the first one. *)
Definition degenerate (digits : str) : bool :=
  match digits with
  | [] => true
  | c :: _ => forallb (fun x => chr_eqb x c) (firstn 9 digits)
  end.

(** The three characters named by the specification's testable property
    of [strip_symbols]: SPACE, FULL STOP and HYPHEN-MINUS. *)
Definition space_dot_dash (c : chr) : bool :=
  chr_eqb c (char " ") || chr_eqb c (char ".") || chr_eqb c (char "-").

(** The property as the specification states it: what is removed is
    exactly these three characters. *)
Definition removes_exactly_space_dot_dash (s : str) : Prop :=
  strip_symbols s = filter (fun c => negb (space_dot_dash c)) s.

(** The code points matched by the class [[\s.-]]. *)
Definition symbol_codes : list N :=
  [9; 10; 11; 12; 13; 28; 29; 30; 31; 32; 133; 160; 5760;
   8192; 8193; 8194; 8195; 8196; 8197; 8198; 8199; 8200; 8201; 8202;
   8232; 8233; 8239; 8287; 12288; 46; 45]%N.

(** The class of the exception a computation raised, if it raised. *)
Definition raised {A : Type} (r : result A) : option exn_class :=
  match r with
  | Return _ => None
  | Raise e => Some (exn_cls e)
  end.

(** The length rule as the specification states it: a candidate without a
    character that is not a digit, of a length that is not accepted, fails
    with [InvalidLength]. *)
Definition length_error_as_stated (cpf_string : str) (allow : bool) : Prop :=
  forallb chr_isdigit (strip_symbols cpf_string) = true ->
  length (strip_symbols cpf_string) <> 11%nat ->
  (allow = false \/ length (strip_symbols cpf_string) <> 9%nat) ->
  raised (require_format (strip_symbols cpf_string) allow)
    = Some InvalidLength /\
  raised (require_valid cpf_string allow) = Some InvalidLength.

(** U+00B2 SUPERSCRIPT TWO and U+0009 CHARACTER TABULATION. *)
Definition superscript_two : chr := 178%N.
Definition tab : chr := 9%N.

(** The values [multiply_digits] yields when every [int] succeeds, and the
    two numbers [calc_check_digit] then binds to [dv1] and [dv2]. *)
Definition products (digits : str) (weights : list nat) : list Z :=
  map (fun ab => digit_value (fst ab) * Z.of_nat (snd ab))
      (combine digits weights).

Definition dv1_of (cpf_digits : str) : Z :=
  (sum (products (slice cpf_digits 0 9) (range 1 10)) mod 11) mod 10.

Definition dv2_of (cpf_digits : str) : Z :=
  (sum (products (slice cpf_digits 0 9 ++ str_of_int (dv1_of cpf_digits))
                 (range 0 10)) mod 11) mod 10.

(* ================================================================== *)
(** ** Facts about the built-ins *)

Lemma chr_eqb_eq (a b : chr) : chr_eqb a b = true <-> a = b.
Proof. unfold chr_eqb. apply N.eqb_eq. Qed.

Lemma chr_eqb_refl (a : chr) : chr_eqb a a = true.
Proof. apply chr_eqb_eq. reflexivity. Qed.

Lemma str_eqb_eq (a b : str) : str_eqb a b = true <-> a = b.
Proof.
  revert b. induction a as [|x a IH]; intros [|y b]; simpl;
    try (split; [discriminate | discriminate]); try tauto.
  rewrite andb_true_iff, chr_eqb_eq, IH.
  split; [intros [-> ->]; reflexivity | intros H; inversion H; auto].
Qed.

Lemma str_eqb_refl (a : str) : str_eqb a a = true.
Proof. apply str_eqb_eq. reflexivity. Qed.

Lemma decimal_isdigit (c : chr) :
  chr_isdecimal c = true -> chr_isdigit c = true.
Proof. unfold chr_isdigit. intros ->. reflexivity. Qed.

Lemma in_range_iff (lo hi n : N) :
  in_range lo hi n = true <-> (lo <= n <= hi)%N.
Proof.
  unfold in_range. rewrite andb_true_iff, !N.leb_le. reflexivity.
Qed.

(** The class [[\s.-]] as the list of the code points it matches. *)
Lemma matches_symbol_codes (c : chr) :
  matches_symbol c = existsb (N.eqb (code c)) symbol_codes.
Proof.
  apply eq_true_iff_eq.
  unfold matches_symbol, re_space, chr_eqb, symbol_codes, code.
  cbv zeta. cbn [existsb].
  change (char ".") with 46%N. change (char "-") with 45%N.
  rewrite !orb_true_iff, !in_range_iff, !N.eqb_eq.
  split; [intros H | intros H]; lia.
Qed.

Lemma isdigit_not_symbol (c : chr) :
  chr_isdigit c = true -> matches_symbol c = false.
Proof.
  intros H. destruct (matches_symbol c) eqn:M; [| reflexivity].
  rewrite matches_symbol_codes in M. apply existsb_exists in M.
  destruct M as (k & Hin & E). apply N.eqb_eq in E.
  unfold code in E. subst k. unfold symbol_codes in Hin.
  repeat (destruct Hin as [Hin | Hin];
          [subst c; vm_compute in H; discriminate H |]).
  contradiction.
Qed.

(** A property of the one-digit numbers is checked on each of them. *)
Lemma one_digit_cases (P : Z -> Prop) :
  (forall k : nat, (k < 10)%nat -> P (Z.of_nat k)) ->
  forall n : Z, 0 <= n < 10 -> P n.
Proof.
  intros H n Hn. rewrite <- (Z2Nat.id n) by lia. apply H. lia.
Qed.

Ltac one_digit n H :=
  revert n H; apply one_digit_cases; intros k Hk;
  do 10 (destruct k as [|k]; [reflexivity|]); exfalso; lia.

Lemma str_of_int_digit (n : Z) : 0 <= n < 10 -> str_of_int n = [digit_chr n].
Proof. intros H. one_digit n H. Qed.

Lemma digit_chr_decimal (n : Z) :
  0 <= n < 10 -> chr_isdecimal (digit_chr n) = true.
Proof. intros H. one_digit n H. Qed.

Lemma digit_chr_value (n : Z) :
  0 <= n < 10 -> digit_value (digit_chr n) = n.
Proof. intros H. one_digit n H. Qed.

Lemma mod11_mod10_range (n : Z) : 0 <= (n mod 11) mod 10 < 10.
Proof. apply Z.mod_pos_bound. lia. Qed.

Lemma int_decimal (c : chr) :
  chr_isdecimal c = true -> int c = Return (digit_value c).
Proof. unfold int. intros ->. reflexivity. Qed.

Lemma int_not_decimal (c : chr) :
  chr_isdecimal c = false -> int c = raise ValueError "".
Proof. unfold int. intros ->. reflexivity. Qed.

(* ================================================================== *)
(** ** Facts about the check digits *)

Lemma multiply_digits_cases (digits : str) (weights : list nat) :
  (forallb chr_isdecimal (firstn (length weights) digits) = true /\
   multiply_digits digits weights = Return (products digits weights)) \/
  (forallb chr_isdecimal (firstn (length weights) digits) = false /\
   multiply_digits digits weights = raise ValueError "").
Proof.
  revert weights.
  induction digits as [|a digits IH]; intros [|b weights]; simpl; auto.
  unfold int. destruct (chr_isdecimal a) eqn:Ea; simpl; auto.
  destruct (IH weights) as [[H1 H2] | [H1 H2]]; rewrite H1, H2; auto.
Qed.

Lemma slice_0_9 (s : str) : slice s 0 9 = firstn 9 s.
Proof. reflexivity. Qed.

Lemma firstn_9_slice (s : str) : firstn 9 (slice s 0 9) = firstn 9 s.
Proof. rewrite slice_0_9, firstn_firstn. reflexivity. Qed.

Lemma firstn_short (A : Type) (n : nat) (l : list A) :
  (length l <= n)%nat -> firstn n l = l.
Proof. intros H. apply firstn_all2. exact H. Qed.

(** [calc_check_digit] either returns the two characters of [dv1] and
    [dv2], or one of the first nine characters is not a decimal digit and
    [int] raises. *)
Lemma calc_check_digit_cases (cpf_digits : str) :
  (forallb chr_isdecimal (firstn 9 cpf_digits) = true /\
   calc_check_digit cpf_digits =
     Return [digit_chr (dv1_of cpf_digits); digit_chr (dv2_of cpf_digits)]) \/
  (forallb chr_isdecimal (firstn 9 cpf_digits) = false /\
   calc_check_digit cpf_digits = raise ValueError "").
Proof.
  unfold calc_check_digit.
  destruct (multiply_digits_cases (slice cpf_digits 0 9) (range 1 10))
    as [[H1 H2] | [H1 H2]];
    change (length (range 1 10)) with 9%nat in H1;
    rewrite firstn_9_slice in H1; rewrite H2; simpl bind; [left | right; auto].
  split; [exact H1|].
  fold (dv1_of cpf_digits).
  pose proof (mod11_mod10_range
                (sum (products (slice cpf_digits 0 9) (range 1 10)))) as R1.
  fold (dv1_of cpf_digits) in R1.
  destruct (multiply_digits_cases
              (slice cpf_digits 0 9 ++ str_of_int (dv1_of cpf_digits))
              (range 0 10)) as [[H3 H4] | [H3 H4]].
  - rewrite H4. simpl bind. fold (dv2_of cpf_digits).
    rewrite !str_of_int_digit; [reflexivity | | exact R1].
    unfold dv2_of. apply mod11_mod10_range.
  - exfalso.
    change (length (range 0 10)) with 10%nat in H3.
    rewrite firstn_short in H3.
    + rewrite forallb_app, slice_0_9, H1, str_of_int_digit in H3 by exact R1.
      simpl in H3. rewrite digit_chr_decimal in H3 by exact R1.
      discriminate.
    + rewrite length_app, slice_0_9, str_of_int_digit by exact R1.
      pose proof (firstn_le_length 9 cpf_digits). cbn [length]. lia.
Qed.

Lemma calc_check_digit_length (cpf_digits dv : str) :
  calc_check_digit cpf_digits = Return dv -> length dv = 2%nat.
Proof.
  destruct (calc_check_digit_cases cpf_digits) as [[_ H] | [_ H]];
    rewrite H; intros E; inversion E; reflexivity.
Qed.

Lemma calc_check_digit_decimal (cpf_digits dv : str) :
  calc_check_digit cpf_digits = Return dv ->
  forallb chr_isdecimal dv = true.
Proof.
  destruct (calc_check_digit_cases cpf_digits) as [[_ H] | [_ H]];
    rewrite H; intros E; inversion E; subst; simpl.
  rewrite !digit_chr_decimal; [reflexivity | |].
  - unfold dv2_of. apply mod11_mod10_range.
  - unfold dv1_of. apply mod11_mod10_range.
Qed.

(** Only the first nine characters matter. *)
Lemma calc_check_digit_firstn (cpf_digits : str) :
  calc_check_digit (firstn 9 cpf_digits) = calc_check_digit cpf_digits.
Proof.
  unfold calc_check_digit. rewrite !slice_0_9, firstn_firstn. reflexivity.
Qed.

Ltac nine_chars d H :=
  destruct d as [|?c0 [|?c1 [|?c2 [|?c3 [|?c4 [|?c5 [|?c6 [|?c7 [|?c8 [|? ?]]]]]]]]]];
  try discriminate H.

Lemma dv1_of_spec (d : str) :
  length d = 9%nat -> dv1_of d = spec_dv1 (map digit_value d).
Proof.
  intros H. nine_chars d H.
  unfold dv1_of, spec_dv1, weighted_sum, sum, products.
  cbn -[digit_value Z.mul Z.add Z.modulo].
  do 2 f_equal. lia.
Qed.

Lemma dv2_of_spec (d : str) :
  length d = 9%nat -> dv2_of d = spec_dv2 (map digit_value d).
Proof.
  intros H. unfold dv2_of, spec_dv2.
  rewrite str_of_int_digit by (unfold dv1_of; apply mod11_mod10_range).
  rewrite <- (dv1_of_spec d H).
  pose proof (digit_chr_value (dv1_of d)
                (mod11_mod10_range _)) as V.
  nine_chars d H.
  unfold weighted_sum, sum, products.
  cbn -[digit_value Z.mul Z.add Z.modulo dv1_of digit_chr].
  rewrite V.
  do 2 f_equal. lia.
Qed.

(** C3. For a string of nine decimal digits, [calc_check_digit] returns the
    two characters of [dv1] and [dv2], where [dv1] is the sum of the digit
    at position [i] times [i + 1] over [i = 0..8], modulo 11 and then
    modulo 10, and [dv2] is the sum of the digit at position [i] times [i]
    over [i = 0..9] of the digits followed by [dv1], modulo 11 and then
    modulo 10.  It maps "100000987" to "44", "280012389" to "38" and
    "111111111" to "11". *)
Theorem calc_check_digit_spec :
  (forall d : str,
      length d = 9%nat ->
      forallb chr_isdecimal d = true ->
      calc_check_digit d =
        Return [digit_chr (spec_dv1 (map digit_value d));
                digit_chr (spec_dv2 (map digit_value d))] /\
      0 <= spec_dv1 (map digit_value d) < 10 /\
      0 <= spec_dv2 (map digit_value d) < 10) /\
  calc_check_digit (lit "100000987") = Return (lit "44") /\
  calc_check_digit (lit "280012389") = Return (lit "38") /\
  calc_check_digit (lit "111111111") = Return (lit "11").
Proof.
  split; [| repeat split; reflexivity].
  intros d Hlen Hdec.
  rewrite <- (dv1_of_spec d Hlen), <- (dv2_of_spec d Hlen).
  repeat split; try (apply mod11_mod10_range).
  destruct (calc_check_digit_cases d) as [[_ H] | [H _]]; [exact H|].
  rewrite firstn_short in H by lia. congruence.
Qed.

Lemma calc_check_digit_spec_witness :
  calc_check_digit (lit "280012389") =
    Return [digit_chr (spec_dv1 (map digit_value (lit "280012389")));
            digit_chr (spec_dv2 (map digit_value (lit "280012389")))] /\
  spec_dv1 (map digit_value (lit "280012389")) = 3 /\
  spec_dv2 (map digit_value (lit "280012389")) = 8.
Proof.
  split; [| split; reflexivity].
  apply (proj1 calc_check_digit_spec (lit "280012389")); reflexivity.
Defined.

(* ================================================================== *)
(** ** Facts about [strip_symbols] and [require_format] *)

Lemma strip_symbols_app (a b : str) :
  strip_symbols (a ++ b) = strip_symbols a ++ strip_symbols b.
Proof.
  induction a as [|c a IH]; simpl; [reflexivity|].
  destruct (matches_symbol c); simpl; rewrite IH; reflexivity.
Qed.

Lemma strip_symbols_filter (s : str) :
  strip_symbols s = filter (fun c => negb (matches_symbol c)) s.
Proof.
  induction s as [|c s IH]; simpl; [reflexivity|].
  destruct (matches_symbol c); simpl; rewrite IH; reflexivity.
Qed.

Lemma strip_symbols_In (s : str) (c : chr) :
  In c (strip_symbols s) <-> In c s /\ matches_symbol c = false.
Proof.
  rewrite strip_symbols_filter, filter_In, negb_true_iff. reflexivity.
Qed.

Lemma strip_symbols_clean (s : str) :
  forallb (fun c => negb (matches_symbol c)) s = true ->
  strip_symbols s = s.
Proof.
  induction s as [|c s IH]; simpl; [reflexivity|].
  rewrite andb_true_iff, negb_true_iff. intros [-> H].
  rewrite IH by exact H. reflexivity.
Qed.

Lemma strip_symbols_result_clean (s : str) :
  forallb (fun c => negb (matches_symbol c)) (strip_symbols s) = true.
Proof.
  induction s as [|c s IH]; simpl; [reflexivity|].
  destruct (matches_symbol c) eqn:E; simpl; [exact IH|].
  rewrite E, IH. reflexivity.
Qed.

Lemma strip_symbols_idempotent (s : str) :
  strip_symbols (strip_symbols s) = strip_symbols s.
Proof. apply strip_symbols_clean, strip_symbols_result_clean. Qed.

Lemma digits_clean (s : str) :
  forallb chr_isdigit s = true ->
  forallb (fun c => negb (matches_symbol c)) s = true.
Proof.
  induction s as [|c s IH]; simpl; [reflexivity|].
  rewrite andb_true_iff. intros [Hc Hs].
  rewrite (isdigit_not_symbol c Hc), IH by exact Hs. reflexivity.
Qed.

Lemma strip_symbols_digits (s : str) :
  forallb chr_isdigit s = true -> strip_symbols s = s.
Proof. intros H. apply strip_symbols_clean, digits_clean, H. Qed.

Lemma isdigit_forallb (s : str) :
  isdigit s = true -> forallb chr_isdigit s = true.
Proof. destruct s; [discriminate | exact (fun H => H)]. Qed.

Lemma isdigit_iff (s : str) :
  isdigit s = true <-> s <> [] /\ forallb chr_isdigit s = true.
Proof.
  destruct s as [|c s]; simpl.
  - split; [discriminate | intros [H _]; contradiction].
  - split; [intros H; split; [discriminate | exact H] | intros [_ H]; exact H].
Qed.

Lemma forallb_decimal_isdigit (s : str) :
  forallb chr_isdecimal s = true -> forallb chr_isdigit s = true.
Proof.
  induction s as [|c s IH]; simpl; [reflexivity|].
  rewrite !andb_true_iff. intros [Hc Hs].
  split; [apply decimal_isdigit, Hc | apply IH, Hs].
Qed.

(** When [require_format] returns, and what it raises otherwise. *)
Lemma require_format_ok (d : str) (allow : bool) :
  require_format d allow = Return tt <->
  isdigit d = true /\
  (length d = 11%nat \/ (allow = true /\ length d = 9%nat)).
Proof.
  unfold require_format, raise.
  destruct (isdigit d); simpl; [| split; [discriminate | intros [? _]; discriminate]].
  destruct (Nat.eqb_spec (length d) 11) as [E|E]; simpl.
  - split; auto.
  - destruct allow; simpl.
    + destruct (Nat.eqb_spec (length d) 9) as [E9|E9]; simpl.
      * split; auto.
      * split; [discriminate | intros [_ [?|[_ ?]]]; contradiction].
    + split; [discriminate | intros [_ [?|[? _]]]; [contradiction | discriminate]].
Qed.

Lemma require_format_raises (d : str) (allow : bool) (e : exception) :
  require_format d allow = Raise e ->
  (isdigit d = false /\
   e = mkExn InvalidCharacters "CPF must contain digits only.") \/
  (isdigit d = true /\ length d <> 11%nat /\
   (allow = false \/ length d <> 9%nat) /\
   exn_cls e = InvalidLength).
Proof.
  unfold require_format, raise.
  destruct (isdigit d); simpl; [| intros E; inversion E; auto].
  destruct (Nat.eqb_spec (length d) 11) as [E|E]; simpl; [discriminate|].
  destruct allow; simpl.
  - destruct (Nat.eqb_spec (length d) 9) as [E9|E9]; simpl; [discriminate|].
    intros H; inversion H; right; auto.
  - intros H; inversion H; right; auto.
Qed.

Lemma require_format_raises_format (d : str) (allow : bool) (e : exception) :
  require_format d allow = Raise e -> isinstance e InvalidIdFormat = true.
Proof.
  intros H. destruct (require_format_raises d allow e H) as [[_ ->] | (_ & _ & _ & Hc)].
  - reflexivity.
  - unfold isinstance. rewrite Hc. reflexivity.
Qed.

(* ================================================================== *)
(** ** Facts about the checksum test and the denylist *)

Lemma slice_neg_app (d dv : str) :
  length dv = 2%nat ->
  slice_to_neg (d ++ dv) 2 = d /\ slice_from_neg (d ++ dv) 2 = dv.
Proof.
  intros H. unfold slice_to_neg, slice_from_neg.
  rewrite length_app, H.
  replace (length d + 2 - 2)%nat with (length d + 0)%nat by lia.
  rewrite firstn_app_2, skipn_app, Nat.add_0_r, skipn_all.
  replace (length d - length d)%nat with 0%nat by lia.
  simpl. rewrite app_nil_r. auto.
Qed.

Lemma slice_neg_11 (d : str) :
  length d = 11%nat ->
  slice_to_neg d 2 = firstn 9 d /\ slice_from_neg d 2 = skipn 9 d.
Proof. intros H. unfold slice_to_neg, slice_from_neg. rewrite H. auto. Qed.

(** On eleven characters the test compares the check digits of the first
    nine with the last two. *)
Lemma has_correct_check_digit_11 (d : str) :
  length d = 11%nat ->
  has_correct_check_digit d =
    (dv <- calc_check_digit d ;; Return (str_eqb dv (skipn 9 d))).
Proof.
  intros H. unfold has_correct_check_digit.
  destruct (slice_neg_11 d H) as [-> ->].
  rewrite calc_check_digit_firstn. reflexivity.
Qed.

Lemma has_correct_check_digit_raises (d : str) (e : exception) :
  has_correct_check_digit d = Raise e -> e = mkExn ValueError "".
Proof.
  unfold has_correct_check_digit.
  destruct (calc_check_digit_cases (slice_to_neg d 2)) as [[_ H] | [_ H]];
    rewrite H; simpl; intros E; inversion E; reflexivity.
Qed.

Lemma all_equal_first_raises (d : str) (idx : list nat) (e : exception) :
  all_equal_first d idx = Raise e -> exn_cls e = IndexError.
Proof.
  induction idx as [|i idx IH]; cbn [all_equal_first]; [discriminate|].
  unfold getitem, raise.
  destruct (nth_error d i) as [a|]; cbn [bind];
    [| intros E; inversion E; reflexivity].
  destruct (nth_error d 0) as [b|]; cbn [bind];
    [| intros E; inversion E; reflexivity].
  destruct (chr_eqb a b); [exact IH | discriminate].
Qed.

(** With at least nine characters no index is out of range and the code
    computes the denylist of the specification. *)
Lemma is_specifically_invalid_number_degenerate (d : str) :
  (9 <= length d)%nat ->
  is_specifically_invalid_number d = Return (degenerate d).
Proof.
  intros H.
  destruct d as [|c0 [|c1 [|c2 [|c3 [|c4 [|c5 [|c6 [|c7 [|c8 r]]]]]]]]];
    simpl in H; try lia.
  unfold is_specifically_invalid_number, degenerate.
  cbn -[chr_eqb]. rewrite chr_eqb_refl.
  repeat (match goal with
          | |- context [chr_eqb ?a ?b] => destruct (chr_eqb a b)
          end; cbn -[chr_eqb]; try reflexivity).
Qed.

Lemma degenerate_app (d dv : str) :
  length d = 9%nat -> degenerate (d ++ dv) = degenerate d.
Proof.
  intros H.
  assert (F : firstn 9 (d ++ dv) = firstn 9 d).
  { rewrite firstn_app, H, Nat.sub_diag. simpl firstn at 2.
    apply app_nil_r. }
  destruct d as [|c d]; [discriminate|].
  unfold degenerate. rewrite <- F. reflexivity.
Qed.

(* ================================================================== *)
(** ** Facts about the constructor *)

Lemma init_stripped (a b : str) :
  strip_symbols a = strip_symbols b -> CPF.__init__ a = CPF.__init__ b.
Proof. unfold CPF.__init__. intros ->. reflexivity. Qed.

(** The constructor on an accepted candidate of eleven characters. *)
Lemma init_11 (s : str) :
  isdigit (strip_symbols s) = true ->
  length (strip_symbols s) = 11%nat ->
  CPF.__init__ s =
    (dv <- calc_check_digit (strip_symbols s) ;;
     Return (CPF.mk (strip_symbols s)
               (str_eqb dv (skipn 9 (strip_symbols s))
                && negb (degenerate (strip_symbols s))))).
Proof.
  intros Hd Hl. unfold CPF.__init__.
  rewrite (proj2 (require_format_ok _ true)) by auto.
  simpl bind. rewrite Hl. simpl.
  rewrite has_correct_check_digit_11 by exact Hl.
  destruct (calc_check_digit (strip_symbols s)) as [dv|e]; simpl; [|reflexivity].
  rewrite is_specifically_invalid_number_degenerate by lia.
  destruct (str_eqb dv _); reflexivity.
Qed.

(** The constructor on an accepted candidate of nine characters. *)
Lemma init_9 (s : str) :
  isdigit (strip_symbols s) = true ->
  length (strip_symbols s) = 9%nat ->
  CPF.__init__ s =
    (dv <- calc_check_digit (strip_symbols s) ;;
     Return (CPF.mk (strip_symbols s ++ dv)
               (negb (degenerate (strip_symbols s ++ dv))))).
Proof.
  intros Hd Hl. unfold CPF.__init__.
  rewrite (proj2 (require_format_ok _ true)) by auto.
  simpl bind. rewrite Hl. simpl.
  destruct (calc_check_digit (strip_symbols s)) as [dv|e]; simpl; [|reflexivity].
  rewrite is_specifically_invalid_number_degenerate
    by (rewrite length_app; lia).
  reflexivity.
Qed.

(** What the constructor can raise: the format error of [require_format],
    or the [ValueError] of an [int] applied to a digit that is not
    decimal. *)
Lemma init_raises (s : str) (e : exception) :
  CPF.__init__ s = Raise e ->
  require_format (strip_symbols s) true = Raise e \/
  (require_format (strip_symbols s) true = Return tt /\
   e = mkExn ValueError "" /\
   forallb chr_isdecimal (firstn 9 (strip_symbols s)) = false).
Proof.
  destruct (require_format (strip_symbols s) true) as [[]|e'] eqn:F.
  - apply require_format_ok in F. destruct F as [Hd [Hl | [_ Hl]]].
    + rewrite init_11 by assumption.
      destruct (calc_check_digit_cases (strip_symbols s)) as [[_ H] | [H1 H]];
        rewrite H; simpl; [discriminate|].
      intros E; inversion E; subst; right; auto.
    + rewrite init_9 by assumption.
      destruct (calc_check_digit_cases (strip_symbols s)) as [[_ H] | [H1 H]];
        rewrite H; simpl; [discriminate|].
      intros E; inversion E; subst; right; auto.
  - unfold CPF.__init__. rewrite F. cbn [bind]. intros E. left.
    inversion E. reflexivity.
Qed.

Lemma forallb_firstn_false (A : Type) (p : A -> bool) (n : nat) (l : list A) :
  forallb p (firstn n l) = false -> forallb p l = false.
Proof.
  intros H. destruct (forallb p l) eqn:E; [|reflexivity].
  rewrite <- (firstn_skipn n l), forallb_app, H in E. discriminate.
Qed.

Lemma not_isdigit_cases (d : str) :
  isdigit d = false ->
  d = [] \/ forallb chr_isdecimal d = false.
Proof.
  destruct d as [|c d]; [auto|]. intros H. right.
  destruct (forallb chr_isdecimal (c :: d)) eqn:E; [|reflexivity].
  apply forallb_decimal_isdigit in E. simpl in H, E. congruence.
Qed.

(** C4. The constructor never fails on a checksum mismatch.  When the
    stripped candidate is eleven decimal digits it is stored as it is, and
    [is_valid] is true exactly when its last two digits are the check
    digits computed from its first nine and the number is not degenerate.
    When it is nine decimal digits, the two computed check digits are
    appended to form the stored value.  An error raised by the constructor
    is never an [InvalidIdValue], and it means that the candidate has a
    character that is not a decimal digit or a length other than 9 and
    11. *)
Theorem init_spec (s : str) :
  (forallb chr_isdecimal (strip_symbols s) = true ->
   length (strip_symbols s) = 11%nat ->
   exists c,
     CPF.__init__ s = Return c /\
     CPF.digits_only c = strip_symbols s /\
     (CPF.is_valid c = true <->
      calc_check_digit (firstn 9 (strip_symbols s)) =
        Return (skipn 9 (strip_symbols s)) /\
      degenerate (strip_symbols s) = false)) /\
  (forallb chr_isdecimal (strip_symbols s) = true ->
   length (strip_symbols s) = 9%nat ->
   exists dv c,
     calc_check_digit (strip_symbols s) = Return dv /\
     length dv = 2%nat /\
     CPF.__init__ s = Return c /\
     CPF.digits_only c = strip_symbols s ++ dv) /\
  (forall e,
     CPF.__init__ s = Raise e ->
     isinstance e InvalidIdValue = false /\
     (forallb chr_isdecimal (strip_symbols s) = false \/
      (length (strip_symbols s) <> 9%nat /\
       length (strip_symbols s) <> 11%nat))).
Proof.
  set (d := strip_symbols s).
  assert (Hdig : forallb chr_isdecimal d = true -> (9 <= length d)%nat ->
                 isdigit d = true).
  { intros H L. apply isdigit_iff. split.
    - intros E. rewrite E in L. simpl in L. lia.
    - apply forallb_decimal_isdigit, H. }
  split; [| split].
  - intros Hdec Hlen. subst d.
    rewrite init_11; [| apply Hdig; [exact Hdec | lia] | exact Hlen].
    rewrite calc_check_digit_firstn.
    destruct (calc_check_digit_cases (strip_symbols s)) as [[_ H] | [H _]].
    + rewrite H. cbn [bind]. eexists. split; [reflexivity|].
      split; [reflexivity|].
      unfold CPF.is_valid. cbn [CPF.__valid].
      rewrite andb_true_iff, negb_true_iff, str_eqb_eq.
      split; intros [A B]; split; congruence.
    + apply forallb_firstn_false in H. congruence.
  - intros Hdec Hlen. subst d.
    rewrite init_9; [| apply Hdig; [exact Hdec | lia] | exact Hlen].
    destruct (calc_check_digit (strip_symbols s)) as [dv|e] eqn:E.
    + exists dv. eexists. cbn [bind].
      repeat split. apply (calc_check_digit_length _ _ E).
    + destruct (calc_check_digit_cases (strip_symbols s)) as [[_ H] | [H _]].
      * congruence.
      * apply forallb_firstn_false in H. congruence.
  - intros e He. subst d.
    destruct (init_raises s e He) as [F | (_ & -> & H)].
    + destruct (require_format_raises _ _ _ F)
        as [[Hd ->] | (_ & L11 & [L | L9] & Hc)].
      * split; [reflexivity|].
        destruct (not_isdigit_cases _ Hd) as [-> | N]; [right | left; exact N].
        simpl. split; discriminate.
      * discriminate L.
      * split; [unfold isinstance; rewrite Hc; reflexivity | right; auto].
    + split; [reflexivity | left].
      apply forallb_firstn_false in H. exact H.
Qed.

Lemma init_spec_witness :
  (exists c,
      CPF.__init__ (lit "123.456.789-10") = Return c /\
      CPF.digits_only c = lit "12345678910" /\
      CPF.is_valid c = false) /\
  (exists c,
      CPF.__init__ (lit "100.000.987") = Return c /\
      CPF.digits_only c = lit "10000098744") /\
  isinstance (mkExn InvalidLength "CPF length must be either 9 or 11 digits")
    InvalidIdValue = false.
Proof.
  split; [| split].
  - destruct (proj1 (init_spec (lit "123.456.789-10")))
      as (c & Hc & Hd & Hv); [reflexivity | reflexivity |].
    exists c. split; [exact Hc | split; [exact Hd|]].
    destruct (CPF.is_valid c); [|reflexivity].
    destruct (proj1 Hv eq_refl) as [A _]. vm_compute in A. discriminate A.
  - destruct (proj1 (proj2 (init_spec (lit "100.000.987"))))
      as (dv & c & Hdv & _ & Hc & Hd); [reflexivity | reflexivity |].
    exists c. split; [exact Hc|].
    rewrite Hd. vm_compute in Hdv. inversion Hdv. reflexivity.
  - apply (proj2 (proj2 (init_spec (lit "1234567")))). reflexivity.
Defined.

Lemma degenerate_repeat (d : str) :
  length d = 9%nat ->
  (degenerate d = true <-> exists a, d = repeat a 9).
Proof.
  intros H. nine_chars d H. unfold degenerate. cbn [firstn forallb].
  rewrite !andb_true_iff, !chr_eqb_eq. split.
  - intros (_ & -> & -> & -> & -> & -> & -> & -> & -> & _).
    exists c0. reflexivity.
  - intros [a E]. cbn [repeat] in E. inversion E. subst. tauto.
Qed.

Lemma has_correct_check_digit_appended (d dv : str) :
  calc_check_digit d = Return dv ->
  has_correct_check_digit (d ++ dv) = Return true.
Proof.
  intros H. unfold has_correct_check_digit.
  destruct (slice_neg_app d dv (calc_check_digit_length _ _ H)) as [-> ->].
  rewrite H. cbn [bind]. rewrite str_eqb_refl. reflexivity.
Qed.

(** C10. For a string [d] of nine decimal digits the computed check digits
    verify: [has_correct_check_digit] holds of [d] followed by
    [calc_check_digit d].  The CPF constructed from [d] is therefore valid,
    unless the nine digits are all the same, and then it is not valid. *)
Theorem appended_check_digit_correct (d : str) :
  length d = 9%nat ->
  forallb chr_isdecimal d = true ->
  exists dv c,
    calc_check_digit d = Return dv /\
    has_correct_check_digit (d ++ dv) = Return true /\
    CPF.__init__ d = Return c /\
    CPF.digits_only c = d ++ dv /\
    (CPF.is_valid c = false <-> exists a, d = repeat a 9).
Proof.
  intros Hlen Hdec.
  assert (Hs : strip_symbols d = d)
    by (apply strip_symbols_digits, forallb_decimal_isdigit, Hdec).
  assert (Hd : isdigit d = true).
  { apply isdigit_iff. split; [intros E; rewrite E in Hlen; discriminate|].
    apply forallb_decimal_isdigit, Hdec. }
  destruct (calc_check_digit_cases d) as [[_ H] | [H _]];
    [| rewrite firstn_short in H by lia; congruence].
  eexists. eexists. split; [exact H|].
  split; [apply has_correct_check_digit_appended, H|].
  rewrite init_9, Hs, H by (rewrite Hs; assumption). cbn [bind].
  split; [reflexivity|]. split; [reflexivity|].
  unfold CPF.is_valid. cbn [CPF.__valid].
  rewrite degenerate_app, negb_false_iff by exact Hlen.
  apply degenerate_repeat, Hlen.
Qed.

Lemma appended_check_digit_correct_witness :
  exists c,
    has_correct_check_digit (lit "28001238938") = Return true /\
    CPF.__init__ (lit "280012389") = Return c /\
    CPF.digits_only c = lit "28001238938" /\
    CPF.is_valid c = true.
Proof.
  destruct (appended_check_digit_correct (lit "280012389"))
    as (dv & c & Hdv & Hok & Hc & Hd & Hv); [reflexivity | reflexivity |].
  vm_compute in Hdv. inversion Hdv. subst dv.
  exists c. split; [exact Hok|]. split; [exact Hc|]. split; [exact Hd|].
  destruct (CPF.is_valid c); [reflexivity|].
  destruct (proj1 Hv eq_refl) as [a E]. vm_compute in E. inversion E.
  subst. discriminate.
Defined.

(* ================================================================== *)
(** ** Constructed values *)

Lemma init_returns_format (s : str) (c : CPF.t) :
  CPF.__init__ s = Return c ->
  require_format (strip_symbols s) true = Return tt.
Proof.
  unfold CPF.__init__.
  destruct (require_format (strip_symbols s) true) as [[]|e];
    [reflexivity | discriminate].
Qed.

(** A constructed CPF holds eleven digits, and constructing again from
    these digits gives the same value. *)
Lemma init_stored (s : str) (c : CPF.t) :
  CPF.__init__ s = Return c ->
  length (CPF.digits_only c) = 11%nat /\
  forallb chr_isdigit (CPF.digits_only c) = true /\
  CPF.__init__ (CPF.digits_only c) = Return c.
Proof.
  intros H. pose proof (init_returns_format s c H) as F.
  apply require_format_ok in F. destruct F as [Hd [Hl | [_ Hl]]].
  - pose proof H as H'. rewrite init_11 in H' by assumption.
    destruct (calc_check_digit (strip_symbols s)) as [dv|e];
      [| discriminate].
    cbn [bind] in H'. inversion H'. subst c. unfold CPF.digits_only.
    cbn [CPF.__cpf_digits].
    split; [exact Hl|]. split; [apply isdigit_forallb, Hd|].
    rewrite <- H. apply init_stripped, strip_symbols_idempotent.
  - rewrite init_9 in H by assumption.
    destruct (calc_check_digit (strip_symbols s)) as [dv|e] eqn:E;
      [| discriminate].
    cbn [bind] in H. inversion H. subst c. unfold CPF.digits_only.
    cbn [CPF.__cpf_digits].
    pose proof (calc_check_digit_length _ _ E) as L2.
    assert (Hall : forallb chr_isdigit (strip_symbols s ++ dv) = true).
    { rewrite forallb_app, (isdigit_forallb _ Hd).
      apply forallb_decimal_isdigit, (calc_check_digit_decimal _ _ E). }
    assert (Hlen : length (strip_symbols s ++ dv) = 11%nat)
      by (rewrite length_app; lia).
    split; [exact Hlen|]. split; [exact Hall|].
    assert (Hs : strip_symbols (strip_symbols s ++ dv) = strip_symbols s ++ dv)
      by (apply strip_symbols_digits, Hall).
    rewrite init_11; rewrite Hs;
      [| apply isdigit_iff; split; [intros N; rewrite N in Hlen; discriminate
                                   | exact Hall]
       | exact Hlen].
    rewrite <- calc_check_digit_firstn.
    rewrite firstn_app, Hl, Nat.sub_diag, firstn_short by lia.
    cbn [firstn]. rewrite app_nil_r, E. cbn [bind].
    rewrite skipn_app, Hl, Nat.sub_diag, skipn_all2 by lia.
    cbn [skipn app]. rewrite str_eqb_refl. reflexivity.
Qed.

(** C7. Rendering a constructed CPF gives digits 0-2, a dot, digits 3-5, a
    dot, digits 6-8, a dash and digits 9-10, and constructing a CPF from
    that string gives a CPF equal to the original. *)
Theorem str_init_roundtrip (s : str) (c : CPF.t) :
  CPF.__init__ s = Return c ->
  exists d0 d1 d2 d3 d4 d5 d6 d7 d8 d9 d10 c',
    CPF.digits_only c = [d0; d1; d2; d3; d4; d5; d6; d7; d8; d9; d10] /\
    CPF.__str__ c =
      Return [d0; d1; d2; (char "."); d3; d4; d5; (char ".");
              d6; d7; d8; (char "-"); d9; d10] /\
    (s' <- CPF.__str__ c ;; CPF.__init__ s') = Return c' /\
    CPF.__eq__ c' c = true /\
    CPF.is_valid c' = CPF.is_valid c.
Proof.
  intros H. destruct (init_stored s c H) as (Hl & Hd & Hi).
  destruct c as [digits valid]. unfold CPF.digits_only in *.
  cbn [CPF.__cpf_digits] in *.
  destruct digits as [|d0 [|d1 [|d2 [|d3 [|d4 [|d5 [|d6 [|d7 [|d8 [|d9 [|d10 [|? ?]]]]]]]]]]]];
    try discriminate Hl.
  exists d0, d1, d2, d3, d4, d5, d6, d7, d8, d9, d10.
  exists (CPF.mk [d0; d1; d2; d3; d4; d5; d6; d7; d8; d9; d10] valid).
  split; [reflexivity|]. split; [reflexivity|].
  split; [| split; [apply str_eqb_refl | reflexivity]].
  change (CPF.__init__ [d0; d1; d2; (char "."); d3; d4; d5; (char ".");
                        d6; d7; d8; (char "-"); d9; d10] =
          Return (CPF.mk [d0; d1; d2; d3; d4; d5; d6; d7; d8; d9; d10] valid)).
  rewrite <- Hi. apply init_stripped.
  rewrite (strip_symbols_digits _ Hd).
  pose proof (digits_clean _ Hd) as Hc. cbn [forallb] in Hc.
  rewrite !andb_true_iff, !negb_true_iff in Hc.
  destruct Hc as (E0 & E1 & E2 & E3 & E4 & E5 & E6 & E7 & E8 & E9 & E10 & _).
  cbn [strip_symbols].
  rewrite E0, E1, E2, E3, E4, E5, E6, E7, E8, E9, E10.
  reflexivity.
Qed.

Lemma str_init_roundtrip_witness :
  exists c c',
    CPF.__init__ (lit " 280 012 389 ") = Return c /\
    CPF.__str__ c = Return (lit "280.012.389-38") /\
    CPF.__init__ (lit "280.012.389-38") = Return c' /\
    CPF.__eq__ c' c = true.
Proof.
  assert (H : CPF.__init__ (lit " 280 012 389 ") =
              Return (CPF.mk (lit "28001238938") true)) by reflexivity.
  destruct (str_init_roundtrip _ _ H)
    as (d0 & d1 & d2 & d3 & d4 & d5 & d6 & d7 & d8 & d9 & d10 & c'
        & Hd & Hs & Hr & He & _).
  exists (CPF.mk (lit "28001238938") true), c'.
  split; [exact H|]. split; [reflexivity|]. split; [exact Hr | exact He].
Defined.

(** C6. Two constructed CPFs are equal exactly when their stored digit
    strings are equal, so inputs that strip to the same candidate, and a
    nine-digit input and the same digits followed by their check digits,
    give equal CPFs; CPF("111.111.111-11"), CPF("11111111111") and
    CPF("111111111") are equal.  The hash is the hash of the stored digit
    string, so equal CPFs have equal hashes. *)
Theorem eq_hash_contract :
  (forall (s1 s2 : str) (c1 c2 : CPF.t),
      CPF.__init__ s1 = Return c1 ->
      CPF.__init__ s2 = Return c2 ->
      (CPF.__eq__ c1 c2 = true <->
       CPF.digits_only c1 = CPF.digits_only c2) /\
      (strip_symbols s1 = strip_symbols s2 -> CPF.__eq__ c1 c2 = true) /\
      (s2 = CPF.digits_only c1 -> CPF.__eq__ c1 c2 = true) /\
      (forall hash : str -> Z,
          CPF.__hash__ hash c1 = hash (CPF.digits_only c1) /\
          (CPF.__eq__ c1 c2 = true ->
           CPF.__hash__ hash c1 = CPF.__hash__ hash c2))) /\
  (exists a b c,
      CPF.__init__ (lit "111.111.111-11") = Return a /\
      CPF.__init__ (lit "11111111111") = Return b /\
      CPF.__init__ (lit "111111111") = Return c /\
      CPF.__eq__ a b = true /\ CPF.__eq__ a c = true /\
      CPF.__eq__ b c = true).
Proof.
  split.
  - intros s1 s2 c1 c2 H1 H2.
    assert (E : CPF.__eq__ c1 c2 = true <->
                CPF.digits_only c1 = CPF.digits_only c2)
      by apply str_eqb_eq.
    split; [exact E|]. split; [| split].
    + intros Hs. rewrite (init_stripped s1 s2 Hs), H2 in H1.
      inversion H1. apply str_eqb_refl.
    + intros ->. destruct (init_stored s1 c1 H1) as (_ & _ & Hi).
      rewrite Hi in H2. inversion H2. apply str_eqb_refl.
    + intros hash. split; [reflexivity|].
      intros Heq. apply E in Heq. unfold CPF.__hash__.
      unfold CPF.digits_only in Heq. rewrite Heq. reflexivity.
  - do 3 eexists. repeat split; reflexivity.
Qed.

Lemma eq_hash_contract_witness :
  exists c1 c2,
    CPF.__init__ (lit "280.012.389-38") = Return c1 /\
    CPF.__init__ (lit "280012389") = Return c2 /\
    CPF.__eq__ c1 c2 = true /\
    CPF.__hash__ (fun d => Z.of_nat (length d)) c1 =
    CPF.__hash__ (fun d => Z.of_nat (length d)) c2.
Proof.
  assert (H1 : CPF.__init__ (lit "280.012.389-38") =
               Return (CPF.mk (lit "28001238938") true)) by reflexivity.
  assert (H2 : CPF.__init__ (lit "280012389") =
               Return (CPF.mk (lit "28001238938") true)) by reflexivity.
  destruct (proj1 eq_hash_contract _ _ _ _ H1 H2) as (E & _ & _ & Hh).
  do 2 eexists. split; [exact H1|]. split; [exact H2|].
  assert (Heq : CPF.__eq__ (CPF.mk (lit "28001238938") true)
                           (CPF.mk (lit "28001238938") true) = true)
    by (apply E; reflexivity).
  split; [exact Heq|].
  apply (proj2 (Hh (fun d => Z.of_nat (length d))) Heq).
Defined.

(* ================================================================== *)
(** ** Validation of raw strings *)

(** The value checks of [require_valid] are guarded by the length of the
    raw string: with any other length only the format is checked. *)
Lemma require_valid_raw_length (s : str) (allow : bool) :
  length s <> 11%nat ->
  require_valid s allow = require_format (strip_symbols s) allow.
Proof.
  intros H. unfold require_valid.
  destruct (Nat.eqb_spec (length s) 11) as [E|_]; [contradiction|].
  destruct (require_format (strip_symbols s) allow) as [[]|e]; reflexivity.
Qed.

Lemma require_valid_format_error (s : str) (allow : bool) (e : exception) :
  require_format (strip_symbols s) allow = Raise e ->
  require_valid s allow = Raise e.
Proof. intros H. unfold require_valid. rewrite H. reflexivity. Qed.

(** Once the format is accepted, [require_valid] raises nothing but
    [InvalidCheckDigit] and the [ValueError] of [int]. *)
Lemma require_valid_value_errors (s : str) (allow : bool) (e : exception) :
  require_format (strip_symbols s) allow = Return tt ->
  require_valid s allow = Raise e ->
  exn_cls e = InvalidCheckDigit \/
  (e = mkExn ValueError "" /\
   exists c, In c (strip_symbols s) /\
             chr_isdigit c = true /\ chr_isdecimal c = false).
Proof.
  intros F. unfold require_valid. rewrite F. cbn [bind].
  destruct (length s =? 11)%nat; [| discriminate].
  pose proof F as F'. apply require_format_ok in F'.
  destruct F' as [Hd Hl].
  destruct (has_correct_check_digit (strip_symbols s)) as [ok|e'] eqn:Hc;
    cbn [bind].
  - destruct ok; cbn [negb].
    + rewrite is_specifically_invalid_number_degenerate by lia. cbn [bind].
      destruct (degenerate (strip_symbols s)); [| discriminate].
      intros E. inversion E. left. reflexivity.
    + intros E. inversion E. left. reflexivity.
  - intros E. inversion E. subst e'. right.
    pose proof (has_correct_check_digit_raises _ _ Hc) as ->.
    split; [reflexivity|].
    unfold has_correct_check_digit in Hc.
    destruct (calc_check_digit_cases (slice_to_neg (strip_symbols s) 2))
      as [[_ H] | [H _]]; [rewrite H in Hc; discriminate|].
    unfold slice_to_neg in H.
    do 2 apply forallb_firstn_false in H.
    destruct (forallb_forall chr_isdigit (strip_symbols s)) as [D _].
    specialize (D (isdigit_forallb _ Hd)).
    assert (X : existsb (fun c => negb (chr_isdecimal c)) (strip_symbols s)
                = true).
    { clear - H. induction (strip_symbols s) as [|c l IH]; [discriminate|].
      simpl in *. destruct (chr_isdecimal c); simpl; auto. }
    apply existsb_exists in X. destruct X as (c & Hin & Hn).
    exists c. rewrite negb_true_iff in Hn. auto.
Qed.

(** C1. The punctuated input "123.456.789-10" strips to eleven digits whose
    check digits are wrong, and yet [require_valid] returns and [is_valid]
    answers true in both modes: the value checks are skipped because the
    raw string has fourteen characters.  The same digits without
    punctuation are rejected with [InvalidCheckDigit], as the constructor
    also records. *)
Theorem require_valid_punctuated_unchecked :
  strip_symbols (lit "123.456.789-10") = lit "12345678910" /\
  has_correct_check_digit (lit "12345678910") = Return false /\
  require_valid (lit "123.456.789-10") false = Return tt /\
  require_valid (lit "123.456.789-10") true = Return tt /\
  is_valid (lit "123.456.789-10") false = Return true /\
  is_valid (lit "123.456.789-10") true = Return true /\
  require_valid (lit "12345678910") false =
    raise InvalidCheckDigit "CPF check digit incorrect" /\
  is_valid (lit "12345678910") false = Return false /\
  (c <- CPF.__init__ (lit "123.456.789-10") ;; Return (CPF.is_valid c))
    = Return false.
Proof. repeat split; reflexivity. Qed.

(** C2. "11111111111" has correct check digits and nine equal leading
    digits; [require_valid] rejects it with the class [InvalidCheckDigit],
    not [InvalidSpecificId], and accepts the punctuated "111.111.111-11".
    No input makes [require_valid] raise [InvalidSpecificId]. *)
Theorem require_valid_denylist_error_class :
  has_correct_check_digit (lit "11111111111") = Return true /\
  is_specifically_invalid_number (lit "11111111111") = Return true /\
  require_valid (lit "11111111111") false =
    raise InvalidCheckDigit "CPF number specifically invalid" /\
  require_valid (lit "11111111111") true =
    raise InvalidCheckDigit "CPF number specifically invalid" /\
  require_valid (lit "111.111.111-11") false = Return tt /\
  (forall (s : str) (allow : bool),
      exn_class_eqb
        match raised (require_valid s allow) with
        | Some c => c
        | None => ExceptionBase
        end InvalidSpecificId = false).
Proof.
  do 5 (split; [reflexivity|]).
  intros s allow.
  destruct (require_valid s allow) as [[]|e] eqn:R; [reflexivity|].
  cbn [raised].
  destruct (require_format (strip_symbols s) allow) as [[]|e'] eqn:F.
  - destruct (require_valid_value_errors s allow e F R) as [-> | [-> _]];
      reflexivity.
  - rewrite (require_valid_format_error s allow e' F) in R.
    inversion R. subst e'.
    destruct (require_format_raises _ _ _ F) as [[_ ->] | (_ & _ & _ & ->)];
      reflexivity.
Qed.

(** C5. [is_valid] and [compare_strings] let an error escape: eleven (or
    nine) SUPERSCRIPT TWO characters pass [str.isdigit], and then [int]
    raises a [ValueError] that is not an [InvalidIdError].  [is_valid] also
    answers true for "123.456.789-10", whose check digits are wrong. *)
Theorem is_valid_compare_strings_raise :
  isdigit (repeat superscript_two 11) = true /\
  isinstance (mkExn ValueError "") InvalidIdError = false /\
  is_valid (repeat superscript_two 11) false = raise ValueError "" /\
  is_valid (repeat superscript_two 11) true = raise ValueError "" /\
  compare_strings (repeat superscript_two 9) (lit "12345678910")
    = raise ValueError "" /\
  compare_strings (repeat superscript_two 11) (lit "abcd")
    = raise ValueError "" /\
  is_valid (lit "123.456.789-10") false = Return true /\
  compare_strings (lit "abcd") (lit "1234567") = Return false.
Proof. repeat split; reflexivity. Qed.

(* ================================================================== *)
(** ** [strip_symbols] and the order of the checks *)

Lemma strip_symbols_count (s : str) (c : chr) :
  count_occ N.eq_dec (strip_symbols s) c =
  if matches_symbol c then 0%nat else count_occ N.eq_dec s c.
Proof.
  unfold str, chr in *.
  induction s as [|x s IH].
  - simpl. destruct (matches_symbol c); reflexivity.
  - cbn [strip_symbols]. destruct (matches_symbol x) eqn:Ex.
    + rewrite IH. destruct (N.eq_dec x c) as [->|Hne].
      * rewrite Ex. reflexivity.
      * rewrite (count_occ_cons_neq _ _ Hne). reflexivity.
    + destruct (N.eq_dec x c) as [->|Hne].
      * rewrite !count_occ_cons_eq by reflexivity. unfold chr.
        rewrite IH, Ex. reflexivity.
      * rewrite !(count_occ_cons_neq _ _ Hne). unfold chr.
        rewrite IH. reflexivity.
Qed.

(** C8, as stated, fails: a tab is removed although it is none of SPACE,
    FULL STOP and HYPHEN-MINUS. *)
Lemma strip_symbols_removes_tab :
  strip_symbols [(char "1"); tab; (char "2")] = lit "12" /\
  space_dot_dash tab = false /\
  ~ removes_exactly_space_dot_dash [(char "1"); tab; (char "2")].
Proof.
  split; [reflexivity|]. split; [reflexivity|].
  unfold removes_exactly_space_dot_dash. vm_compute. discriminate.
Qed.

(** C8, amended. [strip_symbols] removes exactly the characters matched by
    the class: the white space characters of Unicode (TAB, LF, VT, FF, CR,
    FS, GS, RS, US, SPACE, NEL, NBSP, U+1680, U+2000 to U+200A, U+2028,
    U+2029, U+202F, U+205F, U+3000), FULL STOP and HYPHEN-MINUS.  Every
    occurrence of these is removed, every other character is kept, in its
    order and as often as it occurs, and [strip_symbols] is idempotent. *)
Theorem strip_symbols_spec (s : str) :
  strip_symbols s =
    filter (fun c => negb (existsb (N.eqb (code c)) symbol_codes)) s /\
  (forall c : chr,
      count_occ N.eq_dec (strip_symbols s) c =
      if existsb (N.eqb (code c)) symbol_codes then 0%nat
      else count_occ N.eq_dec s c) /\
  strip_symbols (strip_symbols s) = strip_symbols s.
Proof.
  split; [| split].
  - rewrite strip_symbols_filter. apply filter_ext.
    intros c. rewrite matches_symbol_codes. reflexivity.
  - intros c. rewrite <- matches_symbol_codes. apply strip_symbols_count.
  - apply strip_symbols_idempotent.
Qed.

(** C9. The empty candidate has no character that is not a digit and a
    length that is not accepted, and the error is [InvalidCharacters], not
    [InvalidLength]: [str.isdigit] is false of the empty string, so the
    character test fails before the length is looked at.  Five SUPERSCRIPT
    TWO characters, none of them a decimal digit, fail with [InvalidLength]
    and not [InvalidCharacters], and eleven of them pass the format check:
    [str.isdigit] accepts them. *)
Theorem require_format_empty_invalid_characters :
  require_format [] false =
    raise InvalidCharacters "CPF must contain digits only." /\
  require_format [] true =
    raise InvalidCharacters "CPF must contain digits only." /\
  require_valid [] false =
    raise InvalidCharacters "CPF must contain digits only." /\
  require_valid [] true =
    raise InvalidCharacters "CPF must contain digits only." /\
  ~ length_error_as_stated [] false /\
  chr_isdecimal superscript_two = false /\
  raised (require_format (repeat superscript_two 5) false)
    = Some InvalidLength /\
  require_format (repeat superscript_two 11) false = Return tt.
Proof.
  do 4 (split; [reflexivity|]).
  split; [| repeat split; reflexivity].
  unfold length_error_as_stated. intros H.
  destruct H as [H _]; [reflexivity | discriminate | left; reflexivity |].
  vm_compute in H. discriminate H.
Qed.

(** X24. In [require_format] and [require_valid] the format checks come
    first, the character check before the length check.  If the stripped
    candidate is empty or has a character that [str.isdigit] rejects, they
    fail with [InvalidCharacters]; otherwise, if its length is not 11 (and
    not 9 in the permissive mode), they fail with [InvalidLength]; a
    candidate that passes [str.isdigit] and has an accepted length never
    fails with a format error.  When [require_valid] goes on to the value
    checks, a wrong checksum is reported without the denylist being
    consulted. *)
Theorem check_order (s : str) (allow : bool) :
  (isdigit (strip_symbols s) = false <->
   strip_symbols s = [] \/
   exists c, In c (strip_symbols s) /\ chr_isdigit c = false) /\
  (isdigit (strip_symbols s) = false ->
   raised (require_format (strip_symbols s) allow) = Some InvalidCharacters /\
   raised (require_valid s allow) = Some InvalidCharacters) /\
  (isdigit (strip_symbols s) = true ->
   length (strip_symbols s) <> 11%nat ->
   allow = false \/ length (strip_symbols s) <> 9%nat ->
   raised (require_format (strip_symbols s) allow) = Some InvalidLength /\
   raised (require_valid s allow) = Some InvalidLength) /\
  (isdigit (strip_symbols s) = true ->
   length (strip_symbols s) = 11%nat \/
   (allow = true /\ length (strip_symbols s) = 9%nat) ->
   require_format (strip_symbols s) allow = Return tt /\
   forall e, require_valid s allow = Raise e ->
             isinstance e InvalidIdFormat = false) /\
  (length s = 11%nat ->
   require_format (strip_symbols s) allow = Return tt ->
   has_correct_check_digit (strip_symbols s) = Return false ->
   require_valid s allow =
     raise InvalidCheckDigit "CPF check digit incorrect").
Proof.
  split; [| split; [| split; [| split]]].
  - destruct (strip_symbols s) as [|x d]; [simpl; split; auto|].
    cbn [isdigit]. split.
    + intros H. right.
      assert (X : existsb (fun c => negb (chr_isdigit c)) (x :: d) = true).
      { clear - H. induction (x :: d) as [|c l IH]; [discriminate|].
        simpl in *. destruct (chr_isdigit c); simpl; auto. }
      apply existsb_exists in X. destruct X as (c & Hin & Hn).
      exists c. rewrite negb_true_iff in Hn. auto.
    + intros [N | (c & Hin & Hn)]; [discriminate|].
      destruct (forallb chr_isdigit (x :: d)) eqn:E; [|reflexivity].
      rewrite forallb_forall in E. rewrite (E c Hin) in Hn. discriminate.
  - intros H.
    assert (F : require_format (strip_symbols s) allow =
                raise InvalidCharacters "CPF must contain digits only.")
      by (unfold require_format; rewrite H; reflexivity).
    rewrite (require_valid_format_error _ _ _ F), F. split; reflexivity.
  - intros Hd L11 L9.
    destruct (require_format (strip_symbols s) allow) as [[]|e] eqn:F.
    + apply require_format_ok in F.
      destruct F as [_ [L | [A L]]]; [contradiction|].
      destruct L9 as [N | N]; [congruence | contradiction].
    + rewrite (require_valid_format_error _ _ _ F). cbn [raised].
      destruct (require_format_raises _ _ _ F) as [[N _] | (_ & _ & _ & ->)];
        [congruence | split; reflexivity].
  - intros Hd L.
    assert (F : require_format (strip_symbols s) allow = Return tt)
      by (apply require_format_ok; auto).
    split; [exact F|]. intros e R.
    destruct (require_valid_value_errors s allow e F R) as [Hc | [-> _]];
      [unfold isinstance; rewrite Hc|]; reflexivity.
  - intros L F Hc. unfold require_valid.
    rewrite F, L, Hc. reflexivity.
Qed.

Lemma check_order_witness :
  raised (require_valid (lit "123.456.789-XX") false)
    = Some InvalidCharacters /\
  raised (require_valid (lit "123.456.789") false) = Some InvalidLength /\
  require_format (lit "123456789") true = Return tt /\
  require_valid (lit "11111111122") false =
    raise InvalidCheckDigit "CPF check digit incorrect".
Proof.
  split; [| split; [| split]].
  - apply (proj1 (proj2 (check_order (lit "123.456.789-XX") false))).
    reflexivity.
  - apply (proj1 (proj2 (proj2 (check_order (lit "123.456.789") false)))).
    + reflexivity.
    + vm_compute. discriminate.
    + left. reflexivity.
  - apply (proj1 (proj2 (proj2 (proj2 (check_order (lit "123456789") true))))).
    + reflexivity.
    + right. split; reflexivity.
  - apply (proj2 (proj2 (proj2 (proj2
             (check_order (lit "11111111122") false)))));
      reflexivity.
Defined.

(** The only error that escapes [is_valid] is the [ValueError] of [int],
    and it needs a character that [str.isdigit] accepts and that is not a
    decimal digit. *)
Lemma is_valid_raises (s : str) (allow : bool) (e : exception) :
  is_valid s allow = Raise e ->
  e = mkExn ValueError "" /\
  exists c, In c (strip_symbols s) /\
            chr_isdigit c = true /\ chr_isdecimal c = false.
Proof.
  unfold is_valid.
  destruct (require_valid s allow) as [[]|e0] eqn:R; [discriminate|].
  destruct (isinstance e0 InvalidIdError) eqn:I; [discriminate|].
  intros E. inversion E. subst e0.
  destruct (require_format (strip_symbols s) allow) as [[]|e'] eqn:F.
  - destruct (require_valid_value_errors s allow e F R) as [Hc | H];
      [| exact H].
    unfold isinstance in I. rewrite Hc in I. discriminate I.
  - rewrite (require_valid_format_error _ _ _ F) in R. inversion R. subst e'.
    pose proof (require_format_raises_format _ _ _ F) as Hf.
    unfold isinstance in I, Hf. destruct (exn_cls e); discriminate.
Qed.

(* ================================================================== *)
(** ** Further properties: exceptions, stripping, check digits *)

(** X1. The classes of exceptions.py form a hierarchy: [issubclass] is
    reflexive, transitive and antisymmetric; every [InvalidIdError] is a
    [ValueError]; below [InvalidIdError] a class is a format error or a
    value error or [InvalidIdError] itself, and never both a format and a
    value error. *)
Theorem exception_hierarchy :
  (forall c, issubclass c c = true) /\
  (forall a b c,
      issubclass a b && issubclass b c = true -> issubclass a c = true) /\
  (forall a b,
      issubclass a b && issubclass b a = true -> a = b) /\
  (forall c,
      issubclass c InvalidIdError = true -> issubclass c ValueError = true) /\
  (forall c,
      issubclass c InvalidIdError =
      issubclass c InvalidIdFormat || issubclass c InvalidIdValue
      || exn_class_eqb c InvalidIdError) /\
  (forall c,
      issubclass c InvalidIdFormat && issubclass c InvalidIdValue = false).
Proof.
  repeat split.
  - intros []; reflexivity.
  - intros [] [] []; vm_compute; congruence.
  - intros [] []; vm_compute; congruence.
  - intros []; vm_compute; congruence.
  - intros []; reflexivity.
  - intros []; reflexivity.
Qed.

Lemma exception_hierarchy_witness :
  issubclass InvalidCharacters ValueError = true /\
  issubclass InvalidLength InvalidIdError = true.
Proof.
  destruct exception_hierarchy as (_ & T & _ & V & _).
  assert (H : issubclass InvalidLength InvalidIdError = true).
  { apply (T InvalidLength InvalidIdFormat InvalidIdError). reflexivity. }
  split; [| exact H].
  apply V. apply (T InvalidCharacters InvalidIdFormat InvalidIdError).
  reflexivity.
Defined.

Lemma strip_symbols_length (s : str) :
  (length (strip_symbols s) <= length s)%nat.
Proof.
  induction s as [|c s IH]; simpl; [lia|].
  destruct (matches_symbol c); simpl; lia.
Qed.

Lemma strip_symbols_same_length (s : str) :
  length (strip_symbols s) = length s -> strip_symbols s = s.
Proof.
  induction s as [|c s IH]; simpl; [reflexivity|].
  pose proof (strip_symbols_length s) as L.
  destruct (matches_symbol c); simpl; intros H; [lia|].
  rewrite IH by lia. reflexivity.
Qed.

(** X2. Stripping never lengthens a string, keeps the length only of a
    string it leaves unchanged, and distributes over concatenation. *)
Theorem strip_symbols_shrinks (s t : str) :
  (length (strip_symbols s) <= length s)%nat /\
  (length (strip_symbols s) = length s <-> strip_symbols s = s) /\
  strip_symbols (s ++ t) = strip_symbols s ++ strip_symbols t.
Proof.
  split; [apply strip_symbols_length|]. split; [| apply strip_symbols_app].
  split; [apply strip_symbols_same_length | intros ->; reflexivity].
Qed.

(** X3. [calc_check_digit] looks at the first nine characters only.  When
    they are all decimal digits, of any script, also when there are fewer
    than nine or none, it returns exactly two decimal digits; otherwise it
    raises the [ValueError] of [int]. *)
Theorem calc_check_digit_behaviour (d : str) :
  (forallb chr_isdecimal (firstn 9 d) = true ->
   exists a b, calc_check_digit d = Return [a; b] /\
               chr_isdecimal a = true /\ chr_isdecimal b = true) /\
  (forallb chr_isdecimal (firstn 9 d) = false ->
   calc_check_digit d = raise ValueError "") /\
  (forall x, (9 <= length d)%nat ->
             calc_check_digit (d ++ x) = calc_check_digit d).
Proof.
  split; [| split].
  - intros H.
    destruct (calc_check_digit_cases d) as [[_ E] | [N _]]; [| congruence].
    pose proof (calc_check_digit_decimal _ _ E) as D.
    cbn [forallb] in D. rewrite !andb_true_iff in D.
    do 2 eexists. split; [exact E | tauto].
  - intros H.
    destruct (calc_check_digit_cases d) as [[N _] | [_ E]];
      [congruence | exact E].
  - intros x L.
    rewrite <- (calc_check_digit_firstn (d ++ x)),
            <- (calc_check_digit_firstn d).
    rewrite firstn_app.
    replace (9 - length d)%nat with 0%nat by lia.
    cbn [firstn]. rewrite app_nil_r. reflexivity.
Qed.

Lemma calc_check_digit_behaviour_witness :
  (exists a b, calc_check_digit [] = Return [a; b]) /\
  (exists a b,
      calc_check_digit (map N.of_nat (seq 1633 9)) = Return [a; b]) /\
  calc_check_digit (lit "12345678x") = raise ValueError "" /\
  calc_check_digit (lit "280012389" ++ lit "99")
    = calc_check_digit (lit "280012389").
Proof.
  split; [| split; [| split]].
  - destruct (proj1 (calc_check_digit_behaviour [])) as (a & b & E & _);
      [reflexivity|].
    exists a, b. exact E.
  - destruct (proj1 (calc_check_digit_behaviour (map N.of_nat (seq 1633 9))))
      as (a & b & E & _); [reflexivity|].
    exists a, b. exact E.
  - apply (proj1 (proj2 (calc_check_digit_behaviour (lit "12345678x")))).
    reflexivity.
  - apply (proj2 (proj2 (calc_check_digit_behaviour (lit "280012389")))).
    simpl. lia.
Defined.

(** X4. Exactly one pair of check digits verifies: a string followed by
    two characters passes [has_correct_check_digit] if and only if these
    two characters are what [calc_check_digit] returns for the string. *)
Theorem has_correct_check_digit_iff (d x : str) :
  length x = 2%nat ->
  (has_correct_check_digit (d ++ x) = Return true <->
   calc_check_digit d = Return x).
Proof.
  intros H. unfold has_correct_check_digit.
  destruct (slice_neg_app d x H) as [-> ->].
  destruct (calc_check_digit d) as [dv|e]; cbn [bind].
  - split.
    + intros E. inversion E as [E']. apply str_eqb_eq in E'. congruence.
    + intros E. inversion E. rewrite str_eqb_refl. reflexivity.
  - split; discriminate.
Qed.

Lemma has_correct_check_digit_iff_witness :
  has_correct_check_digit (lit "28001238938") = Return true /\
  has_correct_check_digit (lit "28001238939") <> Return true.
Proof.
  split.
  - apply (proj2 (has_correct_check_digit_iff (lit "280012389") (lit "38")
                    eq_refl)).
    reflexivity.
  - intros E.
    apply (proj1 (has_correct_check_digit_iff (lit "280012389") (lit "39")
                    eq_refl)) in E.
    vm_compute in E. discriminate E.
Defined.

Lemma strip_symbols_shrinks_witness :
  strip_symbols (lit "280.012.389-38") <> lit "280.012.389-38" /\
  strip_symbols (lit "28001238938") = lit "28001238938".
Proof.
  split.
  - intros E.
    apply (proj2 (proj1 (proj2 (strip_symbols_shrinks
                                  (lit "280.012.389-38") [])))) in E.
    vm_compute in E. discriminate E.
  - apply (proj1 (proj1 (proj2 (strip_symbols_shrinks
                                  (lit "28001238938") [])))).
    reflexivity.
Defined.

(* ================================================================== *)
(** ** Further properties: the denylist *)

Lemma degenerate_firstn (d : str) :
  degenerate (firstn 9 d) = degenerate d.
Proof.
  destruct d as [|c d]; [reflexivity|].
  unfold degenerate. rewrite firstn_firstn. reflexivity.
Qed.

(** X5. On a string of at least nine characters
    [is_specifically_invalid_number] returns, and it returns true exactly
    when the first nine characters are all the same; what follows them is
    not looked at. *)
Theorem denylist_first_nine (d : str) :
  (9 <= length d)%nat ->
  exists b,
    is_specifically_invalid_number d = Return b /\
    (b = true <-> exists a, firstn 9 d = repeat a 9).
Proof.
  intros H. exists (degenerate d).
  split; [apply is_specifically_invalid_number_degenerate, H|].
  rewrite <- degenerate_firstn. apply degenerate_repeat.
  rewrite length_firstn. lia.
Qed.

Lemma denylist_first_nine_witness :
  is_specifically_invalid_number (lit "77777777712") = Return true /\
  is_specifically_invalid_number (lit "77777777177") = Return false.
Proof.
  split.
  - destruct (denylist_first_nine (lit "77777777712")) as (b & E & I);
      [simpl; lia|].
    rewrite E. f_equal. apply I. exists (char "7"). reflexivity.
  - destruct (denylist_first_nine (lit "77777777177")) as (b & E & I);
      [simpl; lia|].
    rewrite E. f_equal. destruct b; [|reflexivity].
    destruct (proj1 I eq_refl) as [a Ha]. vm_compute in Ha.
    inversion Ha. subst. discriminate.
Defined.

(** X6. On a string of fewer than nine characters
    [is_specifically_invalid_number] returns false as soon as a character
    differs from the first one; when all characters are the same, and when
    the string is empty, it raises [IndexError]. *)
Theorem denylist_short (d : str) :
  (length d < 9)%nat ->
  is_specifically_invalid_number d =
    if match d with
       | [] => true
       | c :: r => forallb (fun x => chr_eqb x c) r
       end
    then raise IndexError "string index out of range"
    else Return false.
Proof.
  intros H.
  destruct d as [|c0 [|c1 [|c2 [|c3 [|c4 [|c5 [|c6 [|c7 [|c8 r]]]]]]]]];
    try (simpl in H; lia); clear H;
    unfold is_specifically_invalid_number;
    cbn -[chr_eqb]; try reflexivity;
    repeat (match goal with
            | |- context [chr_eqb ?a ?b] => destruct (chr_eqb a b)
            end; cbn -[chr_eqb]; try reflexivity).
Qed.

Lemma denylist_short_witness :
  is_specifically_invalid_number (lit "1112") = Return false /\
  is_specifically_invalid_number (lit "1111")
    = raise IndexError "string index out of range" /\
  is_specifically_invalid_number []
    = raise IndexError "string index out of range".
Proof.
  split; [| split].
  - apply (denylist_short (lit "1112")). simpl. lia.
  - apply (denylist_short (lit "1111")). simpl. lia.
  - apply (denylist_short []). simpl. lia.
Defined.

(* ================================================================== *)
(** ** Further properties: constructed values *)

Lemma init_first_nine_decimal (s : str) (c : CPF.t) :
  CPF.__init__ s = Return c ->
  forallb chr_isdecimal (firstn 9 (CPF.digits_only c)) = true.
Proof.
  intros H. destruct (init_stored s c H) as (Hl & Hd & Hi).
  pose proof (strip_symbols_digits _ Hd) as Hs.
  rewrite init_11 in Hi.
  - rewrite Hs in Hi.
    destruct (calc_check_digit_cases (CPF.digits_only c))
      as [[N _] | [_ R]]; [exact N|].
    rewrite R in Hi. discriminate Hi.
  - rewrite Hs. apply isdigit_iff. split; [| exact Hd].
    intros N. rewrite N in Hl. discriminate Hl.
  - rewrite Hs. exact Hl.
Qed.

Lemma same_digits_same (s1 s2 : str) (c1 c2 : CPF.t) :
  CPF.__init__ s1 = Return c1 ->
  CPF.__init__ s2 = Return c2 ->
  CPF.digits_only c1 = CPF.digits_only c2 ->
  c1 = c2.
Proof.
  intros H1 H2 E.
  destruct (init_stored s1 c1 H1) as (_ & _ & I1).
  destruct (init_stored s2 c2 H2) as (_ & _ & I2).
  rewrite E, I2 in I1. inversion I1. reflexivity.
Qed.

Lemma digit_value_range (c : chr) :
  chr_isdecimal c = true -> 0 <= digit_value c <= 9.
Proof.
  unfold chr_isdecimal, digit_value.
  destruct (decimal_zero c) as [z|] eqn:F; [| discriminate].
  intros _. unfold decimal_zero in F. apply find_some in F.
  destruct F as [_ R]. apply in_range_iff in R. lia.
Qed.

(** X7. A constructed CPF stores eleven characters that pass
    [str.isdigit], the first nine of them decimal digits (those [int]
    accepts, of any script); stripping leaves
    them unchanged, and constructing a CPF from [digits_only] gives the
    same CPF again. *)
Theorem stored_digits_invariant (s : str) (c : CPF.t) :
  CPF.__init__ s = Return c ->
  length (CPF.digits_only c) = 11%nat /\
  forallb chr_isdigit (CPF.digits_only c) = true /\
  forallb chr_isdecimal (firstn 9 (CPF.digits_only c)) = true /\
  strip_symbols (CPF.digits_only c) = CPF.digits_only c /\
  CPF.__init__ (CPF.digits_only c) = Return c.
Proof.
  intros H. destruct (init_stored s c H) as (Hl & Hd & Hi).
  repeat split; try assumption.
  - apply (init_first_nine_decimal s c H).
  - apply strip_symbols_digits, Hd.
Qed.

Lemma stored_digits_invariant_witness :
  exists c,
    CPF.__init__ (lit "280 012 389") = Return c /\
    length (CPF.digits_only c) = 11%nat /\
    CPF.__init__ (CPF.digits_only c) = Return c.
Proof.
  assert (H : CPF.__init__ (lit "280 012 389") =
              Return (CPF.mk (lit "28001238938") true)) by reflexivity.
  destruct (stored_digits_invariant _ _ H) as (L & _ & _ & _ & I).
  eexists. split; [exact H|]. split; [exact L | exact I].
Defined.

(** X8. The validity recorded by the constructor is a function of the
    stored digits, on both paths of the constructor: a constructed CPF is
    valid exactly when its stored digits pass [has_correct_check_digit]
    and are not on the denylist. *)
Theorem validity_of_stored_digits (s : str) (c : CPF.t) :
  CPF.__init__ s = Return c ->
  (CPF.is_valid c = true <->
   has_correct_check_digit (CPF.digits_only c) = Return true /\
   is_specifically_invalid_number (CPF.digits_only c) = Return false).
Proof.
  intros H. destruct (init_stored s c H) as (Hl & Hd & Hi).
  pose proof (strip_symbols_digits _ Hd) as Hs.
  rewrite has_correct_check_digit_11 by exact Hl.
  rewrite is_specifically_invalid_number_degenerate by lia.
  rewrite init_11 in Hi;
    [| rewrite Hs; apply isdigit_iff; split;
       [intros N; rewrite N in Hl; discriminate Hl | exact Hd]
     | rewrite Hs; exact Hl].
  rewrite Hs in Hi.
  destruct (calc_check_digit (CPF.digits_only c)) as [dv|e];
    [| discriminate Hi].
  cbn [bind] in *.
  set (ok := str_eqb dv (skipn 9 (CPF.digits_only c))) in *.
  set (bad := degenerate (CPF.digits_only c)) in *.
  assert (V : CPF.is_valid c = ok && negb bad).
  { inversion Hi as [Hc]. rewrite <- Hc at 1. reflexivity. }
  rewrite V. destruct ok, bad; cbn; split;
    try discriminate; try tauto; intros [A B]; discriminate.
Qed.

Lemma validity_of_stored_digits_witness :
  exists c,
    CPF.__init__ (lit "111.111.111") = Return c /\
    CPF.is_valid c = false /\
    is_specifically_invalid_number (CPF.digits_only c) = Return true.
Proof.
  assert (H : CPF.__init__ (lit "111.111.111") =
              Return (CPF.mk (lit "11111111111") false)) by reflexivity.
  pose proof (validity_of_stored_digits _ _ H) as V.
  eexists. split; [exact H|]. split; [| reflexivity].
  destruct (CPF.is_valid (CPF.mk (lit "11111111111") false)) eqn:E;
    [| reflexivity].
  destruct (proj1 V eq_refl) as [_ B]. vm_compute in B. discriminate B.
Defined.

(** X9. Two constructed CPFs that [__eq__] finds equal are the same
    value: they agree on [is_valid], on [__str__] and on [__repr__]. *)
Theorem eq_same_value (s1 s2 : str) (c1 c2 : CPF.t) :
  CPF.__init__ s1 = Return c1 ->
  CPF.__init__ s2 = Return c2 ->
  CPF.__eq__ c1 c2 = true ->
  c1 = c2 /\
  CPF.is_valid c1 = CPF.is_valid c2 /\
  CPF.__str__ c1 = CPF.__str__ c2 /\
  CPF.__repr__ c1 = CPF.__repr__ c2.
Proof.
  intros H1 H2 E. apply str_eqb_eq in E.
  rewrite (same_digits_same s1 s2 c1 c2 H1 H2 E). auto.
Qed.

Lemma eq_same_value_witness :
  exists c1 c2,
    CPF.__init__ (lit "123.456.789-10") = Return c1 /\
    CPF.__init__ (lit "12345678910") = Return c2 /\
    CPF.is_valid c1 = CPF.is_valid c2.
Proof.
  assert (H1 : CPF.__init__ (lit "123.456.789-10") =
               Return (CPF.mk (lit "12345678910") false)) by reflexivity.
  assert (H2 : CPF.__init__ (lit "12345678910") =
               Return (CPF.mk (lit "12345678910") false)) by reflexivity.
  destruct (eq_same_value _ _ _ _ H1 H2 eq_refl) as (_ & V & _).
  do 2 eexists. split; [exact H1|]. split; [exact H2 | exact V].
Defined.

(** X10. On a constructed CPF [regiao_fiscal] never raises and returns a
    region from 1 to 10: the ninth character is a decimal digit, the region
    is its value, and 10 exactly when that value is 0. *)
Theorem regiao_fiscal_range (s : str) (c : CPF.t) :
  CPF.__init__ s = Return c ->
  exists d r,
    CPF.digito_regiao_fiscal c = Return d /\
    CPF.regiao_fiscal c = Return r /\
    1 <= r <= 10 /\
    chr_isdecimal d = true /\
    (r = 10 <-> digit_value d = 0) /\
    (digit_value d <> 0 -> r = digit_value d).
Proof.
  intros H. destruct (init_stored s c H) as (Hl & _ & _).
  pose proof (init_first_nine_decimal s c H) as Hd.
  unfold CPF.regiao_fiscal, CPF.digito_regiao_fiscal, CPF.digits_only in *.
  destruct (CPF.__cpf_digits c)
    as [|d0 [|d1 [|d2 [|d3 [|d4 [|d5 [|d6 [|d7 [|d8 r]]]]]]]]];
    try discriminate Hl.
  cbn [firstn forallb] in Hd. rewrite !andb_true_iff in Hd.
  destruct Hd as (_ & _ & _ & _ & _ & _ & _ & _ & D8 & _).
  exists d8. unfold getitem. cbn [nth_error bind].
  rewrite (int_decimal d8 D8). cbn [bind].
  pose proof (digit_value_range d8 D8) as R.
  destruct (Z.eqb_spec (digit_value d8) 0) as [E|E].
  - exists 10. repeat split; try lia; auto.
  - exists (digit_value d8). repeat split; try lia; auto.
Qed.

Lemma regiao_fiscal_range_witness :
  exists c,
    CPF.__init__ (lit "123.456.780-00") = Return c /\
    CPF.regiao_fiscal c = Return 10.
Proof.
  assert (H : CPF.__init__ (lit "123.456.780-00") =
              Return (CPF.mk (lit "12345678000") false)) by reflexivity.
  destruct (regiao_fiscal_range _ _ H) as (d & r & Hd & Hr & _ & _ & I & _).
  eexists. split; [exact H|]. rewrite Hr. f_equal. apply I.
  vm_compute in Hd. inversion Hd. reflexivity.
Defined.

(** X11. The three digit accessors of a constructed CPF split the stored
    digits: eight random digits, the region digit and two check digits,
    which concatenated give [digits_only]. *)
Theorem accessors_partition (s : str) (c : CPF.t) :
  CPF.__init__ s = Return c ->
  exists r,
    CPF.digito_regiao_fiscal c = Return r /\
    length (CPF.digitos_aleatorios c) = 8%nat /\
    length (CPF.digitos_verificadores c) = 2%nat /\
    CPF.digitos_aleatorios c ++ [r] ++ CPF.digitos_verificadores c
      = CPF.digits_only c.
Proof.
  intros H. destruct (init_stored s c H) as (Hl & _ & _).
  unfold CPF.digitos_aleatorios, CPF.digito_regiao_fiscal,
    CPF.digitos_verificadores, CPF.digits_only in *.
  destruct (CPF.__cpf_digits c)
    as [|d0 [|d1 [|d2 [|d3 [|d4 [|d5 [|d6 [|d7 [|d8 [|d9 [|d10 [|? ?]]]]]]]]]]]];
    try discriminate Hl.
  exists d8. repeat split.
Qed.

Lemma accessors_partition_witness :
  exists c,
    CPF.__init__ (lit "280012389") = Return c /\
    CPF.digitos_aleatorios c = lit "28001238" /\
    CPF.digito_regiao_fiscal c = Return (char "9") /\
    CPF.digitos_verificadores c = lit "38".
Proof.
  assert (H : CPF.__init__ (lit "280012389") =
              Return (CPF.mk (lit "28001238938") true)) by reflexivity.
  destruct (accessors_partition _ _ H) as (r & Hr & _ & _ & _).
  eexists. split; [exact H|]. repeat split; reflexivity.
Defined.

(** X12. [__str__] and [__repr__] never raise on a constructed CPF and
    tell constructed CPFs apart: two constructed CPFs with the same
    rendering are the same value. *)
Theorem str_repr_injective (s1 s2 : str) (c1 c2 : CPF.t) :
  CPF.__init__ s1 = Return c1 ->
  CPF.__init__ s2 = Return c2 ->
  (exists f p, CPF.__str__ c1 = Return f /\ CPF.__repr__ c1 = Return p /\
               length f = 14%nat /\ length p = 21%nat) /\
  (CPF.__str__ c1 = CPF.__str__ c2 -> c1 = c2) /\
  (CPF.__repr__ c1 = CPF.__repr__ c2 -> c1 = c2).
Proof.
  intros H1 H2.
  destruct (init_stored s1 c1 H1) as (L1 & _ & _).
  destruct (init_stored s2 c2 H2) as (L2 & _ & _).
  assert (D : CPF.digits_only c1 = CPF.digits_only c2 -> c1 = c2)
    by apply (same_digits_same s1 s2 c1 c2 H1 H2).
  unfold CPF.__repr__, CPF.__str__, CPF.digitos_aleatorios,
    CPF.digito_regiao_fiscal, CPF.digitos_verificadores, CPF.digits_only in *.
  destruct (CPF.__cpf_digits c1)
    as [|a0 [|a1 [|a2 [|a3 [|a4 [|a5 [|a6 [|a7 [|a8 [|a9 [|a10 [|? ?]]]]]]]]]]]];
    try discriminate L1.
  destruct (CPF.__cpf_digits c2)
    as [|b0 [|b1 [|b2 [|b3 [|b4 [|b5 [|b6 [|b7 [|b8 [|b9 [|b10 [|? ?]]]]]]]]]]]];
    try discriminate L2.
  split; [do 2 eexists; repeat split|].
  split; intros E; apply D; vm_compute in E; inversion E; reflexivity.
Qed.

Lemma str_repr_injective_witness :
  exists c,
    CPF.__init__ (lit "280012389") = Return c /\
    CPF.__repr__ c = Return (lit "CPF('280.012.389-38')").
Proof.
  assert (H : CPF.__init__ (lit "280012389") =
              Return (CPF.mk (lit "28001238938") true)) by reflexivity.
  destruct (str_repr_injective _ _ _ _ H H) as ((f & p & _ & Hp & _) & _).
  eexists. split; [exact H|]. rewrite Hp. vm_compute in Hp.
  inversion Hp. reflexivity.
Defined.

(* ================================================================== *)
(** ** Further properties: comparing strings *)

Lemma init_error_caught_alike (s : str) (e : exception) :
  CPF.__init__ s = Raise e ->
  isinstance e InvalidIdFormat = isinstance e InvalidIdError.
Proof.
  intros H. destruct (init_raises s e H) as [F | (_ & -> & _)];
    [| reflexivity].
  pose proof (require_format_raises_format _ _ _ F) as Hf.
  unfold isinstance in *. destruct (exn_cls e); try discriminate Hf;
    reflexivity.
Qed.

Lemma compare_strings_true (a b : str) :
  compare_strings a b = Return true <->
  exists ca cb,
    CPF.__init__ a = Return ca /\ CPF.__init__ b = Return cb /\
    CPF.digits_only ca = CPF.digits_only cb.
Proof.
  unfold compare_strings.
  destruct (CPF.__init__ a) as [ca|ea]; cbn [bind].
  - destruct (CPF.__init__ b) as [cb|eb]; cbn [bind].
    + split.
      * intros E. inversion E as [E']. apply str_eqb_eq in E'.
        exists ca, cb. auto.
      * intros (x & y & Hx & Hy & E). inversion Hx. inversion Hy. subst.
        f_equal. apply str_eqb_eq, E.
    + split.
      * destruct (isinstance eb InvalidIdFormat); discriminate.
      * intros (x & y & _ & Hy & _). discriminate Hy.
  - split.
    + destruct (isinstance ea InvalidIdFormat); discriminate.
    + intros (x & y & Hx & _). discriminate Hx.
Qed.

(** X13. With a first string that constructs, [compare_strings] is
    [equals_string] on the constructed CPF: the two functions catch
    different classes, but the constructor raises nothing that one catches
    and the other lets through. *)
Theorem compare_strings_equals_string (a b : str) (ca : CPF.t) :
  CPF.__init__ a = Return ca ->
  compare_strings a b = CPF.equals_string ca b.
Proof.
  intros H. unfold compare_strings, CPF.equals_string. rewrite H.
  cbn [bind].
  destruct (CPF.__init__ b) as [cb|e] eqn:Hb; cbn [bind]; [reflexivity|].
  rewrite (init_error_caught_alike b e Hb). reflexivity.
Qed.

Lemma compare_strings_equals_string_witness :
  CPF.equals_string (CPF.mk (lit "11111111111") false) (lit "abcd")
    = Return false /\
  CPF.equals_string (CPF.mk (lit "11111111111") false) (lit "111.111.111")
    = Return true.
Proof.
  assert (H : CPF.__init__ (lit "111.111.111-11") =
              Return (CPF.mk (lit "11111111111") false)) by reflexivity.
  split.
  - rewrite <- (compare_strings_equals_string _ (lit "abcd") _ H).
    reflexivity.
  - rewrite <- (compare_strings_equals_string _ (lit "111.111.111") _ H).
    reflexivity.
Defined.

(** X14. [compare_strings] answering true is a partial equivalence: it is
    symmetric and transitive, it holds of a string with itself exactly
    when the string constructs, and it depends on the stripped strings
    only. *)
Theorem compare_strings_equivalence :
  (forall a b,
      compare_strings a b = Return true ->
      compare_strings b a = Return true) /\
  (forall a b c,
      compare_strings a b = Return true ->
      compare_strings b c = Return true ->
      compare_strings a c = Return true) /\
  (forall a,
      compare_strings a a = Return true <->
      exists c, CPF.__init__ a = Return c) /\
  (forall a a' b,
      strip_symbols a = strip_symbols a' ->
      compare_strings a b = compare_strings a' b /\
      compare_strings b a = compare_strings b a').
Proof.
  split; [| split; [| split]].
  - intros a b H. apply compare_strings_true in H.
    destruct H as (ca & cb & Ha & Hb & E).
    apply compare_strings_true. exists cb, ca. auto.
  - intros a b c H1 H2.
    apply compare_strings_true in H1. apply compare_strings_true in H2.
    destruct H1 as (ca & cb & Ha & Hb & E1).
    destruct H2 as (cb' & cc & Hb' & Hc & E2).
    rewrite Hb in Hb'. inversion Hb'. subst cb'.
    apply compare_strings_true. exists ca, cc.
    split; [exact Ha|]. split; [exact Hc | congruence].
  - intros a. rewrite compare_strings_true. split.
    + intros (ca & _ & Ha & _). exists ca. exact Ha.
    + intros [c Hc]. exists c, c. auto.
  - intros a a' b Hs. unfold compare_strings.
    rewrite (init_stripped a a' Hs). auto.
Qed.

Lemma compare_strings_equivalence_witness :
  compare_strings (lit "111111111") (lit "111.111.111-11") = Return true /\
  compare_strings (lit "111 111 111") (lit "11111111111") = Return true.
Proof.
  destruct compare_strings_equivalence as (S & T & _ & _).
  assert (H1 : compare_strings (lit "111.111.111-11") (lit "111111111")
               = Return true) by reflexivity.
  assert (H2 : compare_strings (lit "111.111.111-11") (lit "11111111111")
               = Return true) by reflexivity.
  split; [apply S, H1|].
  apply (T _ (lit "111.111.111-11")); [reflexivity | exact H2].
Defined.

(** X15. A CPF constructed from nine digits equals the CPF constructed
    from the same digits followed by two more characters exactly when
    these two are the check digits [calc_check_digit] computes. *)
Theorem eq_with_and_without_check_digits
        (s9 s11 x : str) (c9 c11 : CPF.t) :
  length (strip_symbols s9) = 9%nat ->
  length x = 2%nat ->
  strip_symbols s11 = strip_symbols s9 ++ x ->
  CPF.__init__ s9 = Return c9 ->
  CPF.__init__ s11 = Return c11 ->
  (CPF.__eq__ c9 c11 = true <->
   calc_check_digit (strip_symbols s9) = Return x).
Proof.
  intros L9 Lx Hs H9 H11.
  pose proof (init_returns_format _ _ H9) as F9.
  pose proof (init_returns_format _ _ H11) as F11.
  apply require_format_ok in F9. apply require_format_ok in F11.
  destruct F9 as [D9 _]. destruct F11 as [D11 _].
  rewrite init_9 in H9 by assumption.
  rewrite init_11 in H11
    by (try assumption; rewrite Hs, length_app; lia).
  destruct (calc_check_digit (strip_symbols s9)) as [dv|e] eqn:E;
    [| discriminate H9].
  destruct (calc_check_digit (strip_symbols s11)) as [dv'|e'];
    [| discriminate H11].
  cbn [bind] in *. inversion H9. inversion H11. subst c9 c11.
  unfold CPF.__eq__. cbn [CPF.__cpf_digits].
  rewrite str_eqb_eq, Hs. split.
  - intros A. apply app_inv_head in A. congruence.
  - intros A. inversion A. reflexivity.
Qed.

Lemma eq_with_and_without_check_digits_witness :
  exists c9 c11,
    CPF.__init__ (lit "123.456.789") = Return c9 /\
    CPF.__init__ (lit "123.456.789-10") = Return c11 /\
    CPF.__eq__ c9 c11 = false.
Proof.
  assert (H9 : CPF.__init__ (lit "123.456.789") =
               Return (CPF.mk (lit "12345678909") true)) by reflexivity.
  assert (H11 : CPF.__init__ (lit "123.456.789-10") =
                Return (CPF.mk (lit "12345678910") false)) by reflexivity.
  pose proof (eq_with_and_without_check_digits
                (lit "123.456.789") (lit "123.456.789-10") (lit "10")
                _ _ eq_refl eq_refl eq_refl H9 H11) as I.
  do 2 eexists. split; [exact H9|]. split; [exact H11|].
  destruct (CPF.__eq__ (CPF.mk (lit "12345678909") true)
                       (CPF.mk (lit "12345678910") false)) eqn:E;
    [| reflexivity].
  pose proof (proj1 I eq_refl) as A. vm_compute in A. discriminate A.
Defined.

(* ================================================================== *)
(** ** Further properties: validating strings *)

(** X16. On a string of eleven digits without punctuation, the two ways
    of validating agree in both modes: [is_valid] answers what the
    constructed CPF records as [is_valid], and raises when the constructor
    raises. *)
Theorem is_valid_agrees_with_constructor (s : str) (allow : bool) :
  length s = 11%nat ->
  forallb chr_isdigit s = true ->
  is_valid s allow = (c <- CPF.__init__ s ;; Return (CPF.is_valid c)).
Proof.
  intros L D.
  pose proof (strip_symbols_digits s D) as Hs.
  assert (Hd : isdigit s = true).
  { apply isdigit_iff. split; [intros N; rewrite N in L; discriminate L|].
    exact D. }
  rewrite init_11 by (rewrite Hs; assumption).
  unfold is_valid, require_valid. rewrite Hs.
  rewrite (proj2 (require_format_ok s allow)) by auto.
  cbn [bind]. rewrite L. cbn [Nat.eqb].
  rewrite has_correct_check_digit_11 by exact L.
  destruct (calc_check_digit_cases s) as [[_ E] | [_ E]]; rewrite E;
    cbn [bind]; [| reflexivity].
  rewrite is_specifically_invalid_number_degenerate by lia.
  destruct (str_eqb _ _); cbn [negb bind]; [| reflexivity].
  destruct (degenerate s); reflexivity.
Qed.

Lemma is_valid_agrees_with_constructor_witness :
  is_valid (lit "28001238938") false = Return true /\
  is_valid (lit "11111111111") true = Return false.
Proof.
  split.
  - rewrite (is_valid_agrees_with_constructor (lit "28001238938") false);
      reflexivity.
  - rewrite (is_valid_agrees_with_constructor (lit "11111111111") true);
      reflexivity.
Defined.

Lemma stripped_shorter (s : str) :
  strip_symbols s <> s -> (length (strip_symbols s) < length s)%nat.
Proof.
  intros N. pose proof (strip_symbols_length s) as L.
  destruct (Nat.eq_dec (length (strip_symbols s)) (length s)) as [E|E];
    [| lia].
  apply strip_symbols_same_length in E. contradiction.
Qed.

(** X17. A string with punctuation or white space whose stripped form is
    eleven digits is accepted whatever its digits are: [require_valid]
    returns and [is_valid] answers true, in both modes. *)
Theorem punctuated_accepted (s : str) (allow : bool) :
  isdigit (strip_symbols s) = true ->
  length (strip_symbols s) = 11%nat ->
  strip_symbols s <> s ->
  require_valid s allow = Return tt /\ is_valid s allow = Return true.
Proof.
  intros D L N. pose proof (stripped_shorter s N) as Lt.
  assert (R : require_valid s allow = Return tt).
  { rewrite require_valid_raw_length by lia.
    apply require_format_ok. auto. }
  split; [exact R|]. unfold is_valid. rewrite R. reflexivity.
Qed.

Lemma punctuated_accepted_witness :
  is_valid (lit "111.111.111-99") false = Return true /\
  has_correct_check_digit (lit "11111111199") = Return false.
Proof.
  split; [| reflexivity].
  apply (punctuated_accepted (lit "111.111.111-99") false).
  - reflexivity.
  - reflexivity.
  - vm_compute. discriminate.
Defined.

(** X18. In the permissive mode a candidate of nine digits is accepted on
    its format alone, unless the raw string has eleven characters: no
    check digit is computed and the denylist is not consulted.  In the
    strict mode the same string fails with [InvalidLength]. *)
Theorem nine_digits_permissive (s : str) :
  isdigit (strip_symbols s) = true ->
  length (strip_symbols s) = 9%nat ->
  length s <> 11%nat ->
  require_valid s true = Return tt /\
  is_valid s true = Return true /\
  raised (require_valid s false) = Some InvalidLength /\
  is_valid s false = Return false.
Proof.
  intros D L N.
  assert (R : require_valid s true = Return tt).
  { rewrite require_valid_raw_length by exact N.
    apply require_format_ok. auto. }
  assert (R' : require_valid s false =
               raise InvalidLength "CPF length must be 11 digits").
  { rewrite require_valid_raw_length by exact N.
    unfold require_format. rewrite D, L. reflexivity. }
  unfold is_valid. rewrite R, R'. repeat split.
Qed.

Lemma nine_digits_permissive_witness :
  is_valid (lit "111111111") true = Return true /\
  is_valid (lit "111111111") false = Return false.
Proof.
  destruct (nine_digits_permissive (lit "111111111"))
    as (_ & A & _ & B); try reflexivity.
  - simpl. lia.
  - split; [exact A | exact B].
Defined.

(** X19. The mode matters for candidates of nine characters only: when
    the stripped string has any other length, [is_valid] answers the same
    in both modes and [require_valid] raises the same class, if any. *)
Theorem mode_only_for_nine (s : str) :
  length (strip_symbols s) <> 9%nat ->
  is_valid s true = is_valid s false /\
  raised (require_valid s true) = raised (require_valid s false).
Proof.
  intros N.
  assert (F : require_format (strip_symbols s) true = Return tt /\
              require_format (strip_symbols s) false = Return tt \/
              exists e1 e2,
                require_format (strip_symbols s) true = Raise e1 /\
                require_format (strip_symbols s) false = Raise e2 /\
                exn_cls e1 = exn_cls e2).
  { unfold require_format, raise.
    destruct (isdigit (strip_symbols s)); cbn [negb];
      [| right; do 2 eexists; repeat split].
    destruct (Nat.eqb_spec (length (strip_symbols s)) 11) as [E|E];
      cbn [negb]; [left; auto|].
    destruct (Nat.eqb_spec (length (strip_symbols s)) 9) as [E9|E9];
      [contradiction|].
    cbn [negb]. right. do 2 eexists. repeat split. }
  destruct F as [[F1 F2] | (e1 & e2 & F1 & F2 & Ec)].
  - unfold is_valid, require_valid. rewrite F1, F2. auto.
  - unfold is_valid.
    rewrite (require_valid_format_error _ _ _ F1),
            (require_valid_format_error _ _ _ F2).
    pose proof (require_format_raises_format _ _ _ F1) as I1.
    pose proof (require_format_raises_format _ _ _ F2) as I2.
    assert (J : forall e, isinstance e InvalidIdFormat = true ->
                          isinstance e InvalidIdError = true).
    { intros e. unfold isinstance. destruct (exn_cls e);
        try discriminate; reflexivity. }
    rewrite (J _ I1), (J _ I2). cbn [raised]. rewrite Ec. auto.
Qed.

Lemma mode_only_for_nine_witness :
  is_valid (lit "1234567") true = is_valid (lit "1234567") false.
Proof.
  apply (mode_only_for_nine (lit "1234567")). vm_compute. discriminate.
Defined.

(* ================================================================== *)
(** ** Further properties: the interactive examples *)

Lemma require_valid_error_class (s : str) (allow : bool) (e : exception) :
  require_valid s allow = Raise e ->
  exn_cls e = InvalidCharacters \/ exn_cls e = InvalidLength \/
  exn_cls e = InvalidCheckDigit \/ exn_cls e = ValueError.
Proof.
  intros R.
  destruct (require_format (strip_symbols s) allow) as [[]|e'] eqn:F.
  - destruct (require_valid_value_errors s allow e F R) as [H | [-> _]];
      auto.
  - rewrite (require_valid_format_error _ _ _ F) in R. inversion R. subst e'.
    destruct (require_format_raises _ _ _ F) as [[_ ->] | (_ & _ & _ & H)];
      auto.
Qed.

Ltac split_ifs :=
  repeat match goal with
         | |- context [if ?b then _ else _] => destruct b
         end.

Ltac no_such_line H :=
  cbn in H;
  repeat (destruct H as [H | H]; [try discriminate H |]);
  try contradiction.

(** X20. The three validity examples accept the same inputs: each prints
    "Esse CPF é válido." exactly when [require_valid] returns in the strict
    mode. *)
Theorem checkers_agree (typed : str) :
  (In (Print "Esse CPF é válido.") (fst (check_valid_1 typed)) <->
   require_valid typed false = Return tt) /\
  (In (Print "Esse CPF é válido.") (fst (check_valid_2 typed)) <->
   require_valid typed false = Return tt) /\
  (In (Print "Esse CPF é válido.") (fst (check_valid_3 typed)) <->
   require_valid typed false = Return tt).
Proof.
  unfold check_valid_1, check_valid_2, check_valid_3, is_valid.
  destruct (require_valid typed false) as [[]|e].
  - repeat split; intros _; cbn; auto.
  - repeat split; try discriminate; split_ifs; intros H; no_such_line H.
Qed.

Lemma checkers_agree_witness :
  In (Print "Esse CPF é válido.") (fst (check_valid_3 (lit "28001238938"))) /\
  ~ In (Print "Esse CPF é válido.") (fst (check_valid_1 (lit "12345678910"))).
Proof.
  split.
  - apply (proj2 (proj2 (proj2 (checkers_agree (lit "28001238938"))))).
    reflexivity.
  - intros H.
    apply (proj1 (proj1 (checkers_agree (lit "12345678910")))) in H.
    vm_compute in H. discriminate H.
Defined.

(** X21. [check_valid_3] never prints "Esse CPF não existe.": its handler
    for [InvalidSpecificId] is never entered.  An unpunctuated string of
    eleven decimal digits on the denylist is reported with the text of the
    check digit handler instead. *)
Theorem check_valid_3_never_specific (typed : str) :
  ~ In (Print "Esse CPF não existe.") (fst (check_valid_3 typed)) /\
  (length typed = 11%nat ->
   forallb chr_isdecimal typed = true ->
   degenerate typed = true ->
   check_valid_3 typed =
     ([Prompt "Digite um CPF: ";
       Print "Esse CPF foi digitado incorretamente."], None)).
Proof.
  split.
  - unfold check_valid_3.
    destruct (require_valid typed false) as [[]|e] eqn:R.
    + intros H. no_such_line H.
    + pose proof (require_valid_error_class _ _ _ R) as C.
      unfold isinstance.
      destruct C as [C | [C | [C | C]]]; rewrite C; cbn; intros H;
        no_such_line H.
  - intros L D G.
    pose proof (forallb_decimal_isdigit _ D) as Dg.
    pose proof (strip_symbols_digits _ Dg) as Hs.
    assert (Hd : isdigit typed = true).
    { apply isdigit_iff. split; [intros N; rewrite N in L; discriminate L|].
      exact Dg. }
    assert (R : exists msg, require_valid typed false =
                            raise InvalidCheckDigit msg).
    { unfold require_valid. rewrite Hs.
      rewrite (proj2 (require_format_ok typed false)) by auto.
      cbn [bind]. rewrite L. cbn [Nat.eqb].
      rewrite has_correct_check_digit_11 by exact L.
      destruct (calc_check_digit_cases typed) as [[_ E] | [N _]].
      - rewrite E. cbn [bind].
        rewrite is_specifically_invalid_number_degenerate, G by lia.
        destruct (str_eqb _ _); cbn [negb bind]; eexists; reflexivity.
      - apply forallb_firstn_false in N. congruence. }
    destruct R as [msg R]. unfold check_valid_3. rewrite R. reflexivity.
Qed.

Lemma check_valid_3_never_specific_witness :
  check_valid_3 (lit "11111111111") =
    ([Prompt "Digite um CPF: ";
      Print "Esse CPF foi digitado incorretamente."], None).
Proof.
  apply (proj2 (check_valid_3_never_specific (lit "11111111111")));
    reflexivity.
Defined.

(** X22. [equality_1] reports the same CPF exactly when the typed line
    strips to "12345678910"; the nine digits "123456789" alone are not
    enough, since their computed check digits are not "10". *)
Theorem equality_1_same (typed : str) :
  equality_1 typed =
    ([Prompt "Digite o CPF 123.456.789-10: ";
      Print "Você digitou o mesmo CPF."], None) <->
  strip_symbols typed = lit "12345678910".
Proof.
  split.
  - unfold equality_1.
    destruct (compare_strings (lit "123.456.789-10") typed)
      as [[|]|e] eqn:C; try discriminate. intros _.
    apply compare_strings_true in C.
    destruct C as (ca & cb & Ha & Hb & E).
    vm_compute in Ha. inversion Ha. subst ca.
    unfold CPF.digits_only in E. cbn [CPF.__cpf_digits] in E.
    pose proof (init_returns_format _ _ Hb) as F.
    apply require_format_ok in F. destruct F as [D [L | [_ L]]].
    + rewrite init_11 in Hb by assumption.
      destruct (calc_check_digit (strip_symbols typed)); [| discriminate Hb].
      cbn [bind] in Hb. inversion Hb. subst cb. symmetry. exact E.
    + exfalso. rewrite init_9 in Hb by assumption.
      destruct (calc_check_digit (strip_symbols typed)) as [dv|]
        eqn:K; [| discriminate Hb].
      cbn [bind] in Hb. inversion Hb. subst cb.
      cbn [CPF.__cpf_digits] in E.
      pose proof (calc_check_digit_length _ _ K) as L2.
      assert (S9 : strip_symbols typed = lit "123456789").
      { apply (f_equal (firstn 9)) in E.
        rewrite firstn_app, L, Nat.sub_diag,
          (firstn_short _ 9 (strip_symbols typed)) in E by lia.
        cbn [firstn] in E. rewrite app_nil_r in E. symmetry. exact E. }
      rewrite S9 in E, K. vm_compute in K. inversion K. subst dv.
      vm_compute in E. discriminate E.
  - intros Hs. unfold equality_1, compare_strings.
    rewrite (init_stripped typed (lit "12345678910")) by (rewrite Hs; reflexivity).
    reflexivity.
Qed.

Lemma equality_1_same_witness :
  equality_1 (lit " 123 456 789 10 ") =
    ([Prompt "Digite o CPF 123.456.789-10: ";
      Print "Você digitou o mesmo CPF."], None).
Proof.
  apply (proj2 (equality_1_same (lit " 123 456 789 10 "))). reflexivity.
Defined.

Lemma forallb_false_exists (A : Type) (p : A -> bool) (l : list A) :
  forallb p l = false -> exists x, In x l /\ p x = false.
Proof.
  induction l as [|x l IH]; [discriminate|]. cbn [forallb].
  destruct (p x) eqn:E.
  - intros H. destruct (IH H) as (y & Hy & Py). exists y. split;
      [right; exact Hy | exact Py].
  - intros _. exists x. split; [left; reflexivity | exact E].
Qed.

Lemma init_value_error_char (s : str) (e : exception) :
  CPF.__init__ s = Raise e ->
  isinstance e InvalidIdFormat = false ->
  e = mkExn ValueError "" /\
  exists c, In c (strip_symbols s) /\
            chr_isdigit c = true /\ chr_isdecimal c = false.
Proof.
  intros H I. destruct (init_raises s e H) as [F | (F & -> & N)].
  - rewrite (require_format_raises_format _ _ _ F) in I. discriminate I.
  - split; [reflexivity|].
    apply forallb_firstn_false, forallb_false_exists in N.
    destruct N as (c & Hin & Hc). exists c. split; [exact Hin|].
    split; [| exact Hc].
    apply require_format_ok in F. destruct F as [D _].
    apply isdigit_forallb in D. rewrite forallb_forall in D. auto.
Qed.

(** X23. The examples [check_valid_1], [check_valid_2], [check_valid_3]
    and [equality_1] end with an uncaught exception only for the
    [ValueError] of [int], and only when the typed line contains a
    character that [str.isdigit] accepts and that is not a decimal digit.
    In particular a line of ASCII characters never makes them fail. *)
Theorem examples_uncaught (typed : str) (e : exception) :
  snd (check_valid_1 typed) = Some e \/
  snd (check_valid_2 typed) = Some e \/
  snd (check_valid_3 typed) = Some e \/
  snd (equality_1 typed) = Some e ->
  e = mkExn ValueError "" /\
  exists c, In c (strip_symbols typed) /\
            chr_isdigit c = true /\ chr_isdecimal c = false.
Proof.
  assert (V : forall e0, require_valid typed false = Raise e0 ->
                exn_cls e0 = InvalidCharacters \/
                exn_cls e0 = InvalidLength \/
                exn_cls e0 = InvalidCheckDigit \/
                (e0 = mkExn ValueError "" /\
                 exists c, In c (strip_symbols typed) /\
                           chr_isdigit c = true /\ chr_isdecimal c = false)).
  { intros e0 R.
    destruct (require_format (strip_symbols typed) false) as [[]|e'] eqn:F.
    - destruct (require_valid_value_errors _ _ _ F R) as [H | H]; auto.
    - rewrite (require_valid_format_error _ _ _ F) in R. inversion R.
      subst e'.
      destruct (require_format_raises _ _ _ F)
        as [[_ ->] | (_ & _ & _ & H)]; auto. }
  intros [H | [H | [H | H]]].
  - unfold check_valid_1 in H.
    destruct (is_valid typed false) as [[|]|e0] eqn:R; try discriminate H.
    cbn in H. inversion H. subst e0. apply (is_valid_raises _ _ _ R).
  - unfold check_valid_2 in H.
    destruct (require_valid typed false) as [[]|e0] eqn:R;
      [discriminate H|].
    unfold isinstance in H.
    destruct (V e0 eq_refl) as [C | [C | [C | [-> X]]]];
      try (rewrite C in H; discriminate H).
    cbn in H. inversion H. subst e. auto.
  - unfold check_valid_3 in H.
    destruct (require_valid typed false) as [[]|e0] eqn:R;
      [discriminate H|].
    unfold isinstance in H.
    destruct (V e0 eq_refl) as [C | [C | [C | [-> X]]]];
      try (rewrite C in H; discriminate H).
    cbn in H. inversion H. subst e. auto.
  - unfold equality_1, compare_strings in H.
    change (CPF.__init__ (lit "123.456.789-10"))
      with (Return (CPF.mk (lit "12345678910") false)) in H.
    cbn [bind] in H.
    destruct (CPF.__init__ typed) as [cb|e0] eqn:R; cbn [bind] in H.
    + destruct (CPF.__eq__ _ cb); discriminate H.
    + destruct (isinstance e0 InvalidIdFormat) eqn:I; [discriminate H|].
      cbn in H. inversion H. subst e0.
      apply (init_value_error_char _ _ R I).
Qed.

Lemma examples_uncaught_witness :
  snd (check_valid_3 (repeat superscript_two 11))
    = Some (mkExn ValueError "") /\
  exists c, In c (strip_symbols (repeat superscript_two 11)) /\
            chr_isdigit c = true /\ chr_isdecimal c = false.
Proof.
  assert (H : snd (check_valid_3 (repeat superscript_two 11))
              = Some (mkExn ValueError "")) by reflexivity.
  split; [exact H|].
  apply (examples_uncaught (repeat superscript_two 11)
           (mkExn ValueError "") (or_intror (or_intror (or_introl H)))).
Defined.

(* ================================================================== *)
(** ** The character tables at some code points *)

(** The tables of the built-ins on a few characters outside ASCII:
    IDEOGRAPHIC SPACE and EM SPACE are white space, ARABIC-INDIC DIGIT
    ZERO and NINE are decimal digits with values 0 and 9, and SUPERSCRIPT
    TWO and CIRCLED DIGIT ONE are digits without being decimal digits. *)
Lemma character_tables_examples :
  re_space 12288%N = true /\ re_space 8195%N = true /\
  int 1632%N = Return 0 /\ int 1641%N = Return 9 /\
  chr_isdigit superscript_two = true /\
  int superscript_two = raise ValueError "" /\
  chr_isdigit 9312%N = true /\ chr_isdecimal 9312%N = false /\
  chr_isdigit (char "a") = false /\ re_space (char "0") = false.
Proof. repeat split; reflexivity. Qed.
